(** * locationews: a place-name news search over the Google News RSS feed

    Shallow embedding of [app.py] and proofs of the properties its
    specification states.  The script has four parts: the time helpers
    ([xdaysago], [_published_to_jst]), the feed normaliser
    ([google_news_to_table]), the query builder ([build_query],
    [q_to_tb]) and the Streamlit page (the [if run:] block).

    Python values are modelled as follows.
    - [str] is a list of Unicode code points ([list N]); literals are
      written as UTF-8 text and decoded by [lit].
    - Exceptions are values of [exn]; a computation that may raise
      returns a [result].
    - The script reads the wall clock and the machine's local time zone,
      calls [feedparser.parse] and emits Streamlit calls: these effects
      live in the monad [M] (reader for the environment, a counter of
      clock reads, a writer for the emitted events).
    - A [pandas.DataFrame] built from a list of dicts with the four
      fixed keys is the list of its rows. *)

From Stdlib Require Import ZArith NArith Lia String Ascii.
From stdpp Require Import base gmap list.

#[local] Set Warnings "-clear-no-such-hyp".


(* ===================================================================== *)
(** ** Python strings                                                     *)
(* ===================================================================== *)

Module PyStr.
Local Open Scope N_scope.

(** A Python [str]: the sequence of its code points. *)
Abbreviation str := (list N).

(** UTF-8 decoding of well-formed text, used to write literals. *)
Fixpoint utf8_decode (bs : list N) : str :=
  match bs with
  | [] => []
  | b0 :: r0 =>
      if b0 <? 0x80 then b0 :: utf8_decode r0
      else match r0 with
           | [] => []
           | b1 :: r1 =>
               if b0 <? 0xE0
               then ((b0 - 0xC0) * 64 + (b1 - 0x80)) :: utf8_decode r1
               else match r1 with
                    | [] => []
                    | b2 :: r2 =>
                        if b0 <? 0xF0
                        then ((b0 - 0xE0) * 4096 + (b1 - 0x80) * 64
                              + (b2 - 0x80)) :: utf8_decode r2
                        else match r2 with
                             | [] => []
                             | b3 :: r3 =>
                                 ((b0 - 0xF0) * 262144 + (b1 - 0x80) * 4096
                                  + (b2 - 0x80) * 64 + (b3 - 0x80))
                                   :: utf8_decode r3
                             end
                    end
           end
  end.

Definition bytes_of_string (s : string) : list N :=
  List.map N_of_ascii (list_ascii_of_string s).

(** [lit "text"] is the Python literal ["text"]. *)
Definition lit (s : string) : str := utf8_decode (bytes_of_string s).
#[global] Arguments lit : simpl never.

(** [Py_UNICODE_ISSPACE]: the characters [str.strip()] removes. *)
Definition isspace (c : N) : bool :=
  ((0x09 <=? c) && (c <=? 0x0D)) || ((0x1C <=? c) && (c <=? 0x20))
  || (c =? 0x85) || (c =? 0xA0) || (c =? 0x1680)
  || ((0x2000 <=? c) && (c <=? 0x200A))
  || (c =? 0x2028) || (c =? 0x2029) || (c =? 0x202F) || (c =? 0x205F)
  || (c =? 0x3000).

Fixpoint lstrip (s : str) : str :=
  match s with
  | [] => []
  | c :: r => if isspace c then lstrip r else s
  end.

Definition rstrip (s : str) : str := rev (lstrip (rev s)).

(** [s.strip()] *)
Definition strip (s : str) : str := rstrip (lstrip s).

(** Truth value of a string: [bool(s)]. *)
Definition truthy (s : str) : bool :=
  match s with [] => false | _ => true end.

(** [sep.join(parts)] *)
Fixpoint join (sep : str) (parts : list str) : str :=
  match parts with
  | [] => []
  | [p] => p
  | p :: ps => p ++ sep ++ join sep ps
  end.

End PyStr.
Import PyStr.

(* ===================================================================== *)
(** ** Exceptions                                                         *)
(* ===================================================================== *)

Inductive exn : Type :=
| OverflowError
| ValueError
| OSError
| UnicodeEncodeError
| RemoteDisconnected  (* [http.client.RemoteDisconnected]: the server
                         closed the connection without an answer *)
| StopException.      (* raised by [st.stop()] *)

Inductive result (A : Type) : Type :=
| Ok (a : A)
| Raise (e : exn).
Arguments Ok {A} a.
Arguments Raise {A} e.

Definition rbind {A B} (r : result A) (k : A -> result B) : result B :=
  match r with
  | Ok a => k a
  | Raise e => Raise e
  end.

#[global] Instance result_ret : MRet result := @Ok.
#[global] Instance result_bind : MBind result := fun A B k r => rbind r k.

(* ===================================================================== *)
(** ** [urllib.parse.quote_plus]                                          *)
(* ===================================================================== *)

Module Urllib.
Local Open Scope N_scope.

(** [str.encode("utf-8", "strict")] of one code point.  A lone
    surrogate cannot be encoded; values from 0x110000 on are not
    code points of a [str]. *)
Definition utf8_encode_char (c : N) : result (list N) :=
  if c <? 0x80 then Ok [c]
  else if c <? 0x800 then Ok [0xC0 + c / 64; 0x80 + c mod 64]
  else if c <? 0x10000 then
    if (0xD800 <=? c) && (c <? 0xE000) then Raise UnicodeEncodeError
    else Ok [0xE0 + c / 4096; 0x80 + (c / 64) mod 64; 0x80 + c mod 64]
  else if c <? 0x110000 then
    Ok [0xF0 + c / 262144; 0x80 + (c / 4096) mod 64;
        0x80 + (c / 64) mod 64; 0x80 + c mod 64]
  else Raise UnicodeEncodeError.

Fixpoint utf8_encode (s : str) : result (list N) :=
  match s with
  | [] => Ok []
  | c :: r =>
      bs ← utf8_encode_char c;
      rest ← utf8_encode r;
      Ok (bs ++ rest)
  end.

(** [_ALWAYS_SAFE]: ASCII letters, digits and [_.-~]. *)
Definition always_safe (b : N) : bool :=
  ((0x41 <=? b) && (b <=? 0x5A)) || ((0x61 <=? b) && (b <=? 0x7A))
  || ((0x30 <=? b) && (b <=? 0x39))
  || (b =? 0x5F) || (b =? 0x2E) || (b =? 0x2D) || (b =? 0x7E).

(** One upper-case hexadecimal digit. *)
Definition hex_digit (d : N) : N :=
  if d <? 10 then 0x30 + d else 0x41 + (d - 10).

(** A safe byte is kept, a space becomes [+] (the space is quoted as
    itself and then replaced), any other byte becomes [%XX]. *)
Definition quote_byte (b : N) : str :=
  if always_safe b then [b]
  else if b =? 0x20 then [0x2B]
  else [0x25; hex_digit (b / 16); hex_digit (b mod 16)].

Definition quote_plus (s : str) : result str :=
  bs ← utf8_encode s;
  Ok (concat (List.map quote_byte bs)).

End Urllib.
Import Urllib.

(* ===================================================================== *)
(** ** [datetime] and [time]                                              *)
(* ===================================================================== *)

Module Datetime.
Local Open Scope Z_scope.

(** Day number (days since 1970-01-01) of a date of the proleptic
    Gregorian calendar, for a month in 1..12. *)
Definition days_from_civil (y m d : Z) : Z :=
  let y := if m <=? 2 then y - 1 else y in
  let era := y / 400 in
  let yoe := y - era * 400 in
  let mp := (m + 9) mod 12 in
  let doy := (153 * mp + 2) / 5 + d - 1 in
  let doe := yoe * 365 + yoe / 4 - yoe / 100 + doy in
  era * 146097 + doe - 719468.

(** Year, month and day of a day number. *)
Definition civil_from_days (z : Z) : Z * Z * Z :=
  let z := z + 719468 in
  let era := z / 146097 in
  let doe := z - era * 146097 in
  let yoe := (doe - doe / 1460 + doe / 36524 - doe / 146096) / 365 in
  let doy := doe - (365 * yoe + yoe / 4 - yoe / 100) in
  let mp := (5 * doy + 2) / 153 in
  let d := doy - (153 * mp + 2) / 5 + 1 in
  let m := if mp <? 10 then mp + 3 else mp - 9 in
  let y := yoe + era * 400 in
  (if m <=? 2 then y + 1 else y, m, d).

(** [date.min] is 0001-01-01 and [date.max] is 9999-12-31. *)
Definition MINDAY : Z := -719162.
Definition MAXDAY : Z := 2932896.

Definition day_in_range (z : Z) : bool := (MINDAY <=? z) && (z <=? MAXDAY).

(** A [datetime.date], held as its day number. *)
Record date := Date { date_days : Z }.

(** A [datetime.datetime] at whole seconds: the seconds its wall clock
    shows since 1970-01-01 00:00:00, and the UTC offset of its
    [tzinfo] ([None] for a naive value). *)
Record datetime := DateTime { dt_wall : Z; dt_tzinfo : option Z }.

(** [timezone(timedelta(hours=9))] *)
Definition JST : Z := 9 * 3600.
(** [timezone.utc] *)
Definition UTC : Z := 0.

Definition digit (n : Z) : N := Z.to_N (48 + n mod 10).
(** ["%02d"] and ["%04d"] of a number that fits the width. *)
Definition pad2 (n : Z) : str := [digit (n / 10); digit n].
Definition pad4 (n : Z) : str :=
  [digit (n / 1000); digit (n / 100); digit (n / 10); digit n].

(** The seconds that [gmtime] of the C library (glibc, 64-bit
    [time_t]) can break down: the year less 1900 must fit an [int]. *)
Definition GMTIME_MIN : Z := -67768040609740800.
Definition GMTIME_MAX : Z := 67768036191676799.

(** The first steps of [fromtimestamp] and [utcfromtimestamp]: the
    value must be a [time_t] ([OverflowError] otherwise), [gmtime] must
    break it down ([OSError] otherwise), and the UTC year must lie in
    1..9999 ([ValueError] otherwise). *)
Definition utc_fields_check (t : Z) : result unit :=
  if negb ((- 2 ^ 63 <=? t) && (t <? 2 ^ 63)) then Raise OverflowError
  else if negb ((GMTIME_MIN <=? t) && (t <=? GMTIME_MAX)) then Raise OSError
  else if negb (day_in_range (t / 86400)) then Raise ValueError
  else Ok tt.

(** [datetime.fromtimestamp(t, tz)]: the UTC value is built first, then
    moved to the zone by [tz.fromutc], which raises [OverflowError]
    when the moved value leaves the years 1..9999. *)
Definition fromtimestamp (t : Z) (tz : Z) : result datetime :=
  _ ← utc_fields_check t;
  if day_in_range ((t + tz) / 86400)
  then Ok (DateTime (t + tz) (Some tz))
  else Raise OverflowError.

(** [datetime.utcfromtimestamp(t)]: a naive value showing UTC.  The
    argument is a float in Python; it is exact for whole seconds below
    2^53, and every value above is an error here, of a kind that can
    differ next to the bounds of [gmtime]. *)
Definition utcfromtimestamp (t : Z) : result datetime :=
  _ ← utc_fields_check t;
  Ok (DateTime t None).

(** [dt.replace(tzinfo=tz)] *)
Definition replace_tzinfo (dt : datetime) (tz : Z) : datetime :=
  DateTime (dt_wall dt) (Some tz).

(** [dt.astimezone(tz)]; a naive [dt] is taken to show the local
    time of the machine. *)
Definition astimezone (localtz : Z) (dt : datetime) (tz : Z)
  : result datetime :=
  let off := match dt_tzinfo dt with Some o => o | None => localtz end in
  let wall := dt_wall dt - off + tz in
  if day_in_range (wall / 86400)
  then Ok (DateTime wall (Some tz))
  else Raise OverflowError.

(** [dt.date()] *)
Definition to_date (dt : datetime) : date := Date (dt_wall dt / 86400).

(** [d - timedelta(days=x)] *)
Definition date_sub_days (d : date) (x : Z) : result date :=
  if day_in_range (date_days d - x)
  then Ok (Date (date_days d - x))
  else Raise OverflowError.

(** [d.isoformat()]: ["%04d-%02d-%02d"]. *)
Definition isoformat (d : date) : str :=
  let '(y, m, dd) := civil_from_days (date_days d) in
  pad4 y ++ lit "-" ++ pad2 m ++ lit "-" ++ pad2 dd.

(** ["%Y"] as the C library prints it (Python 3.11, glibc): the year in
    decimal, without padding, for a year in 1..9999. *)
Definition year_str (y : Z) : str :=
  if y <? 10 then [digit y]
  else if y <? 100 then [digit (y / 10); digit y]
  else if y <? 1000 then [digit (y / 100); digit (y / 10); digit y]
  else pad4 y.

(** [dt.strftime("%Y-%m-%d %H:%M")] *)
Definition strftime_ymd_hm (dt : datetime) : str :=
  let '(y, m, dd) := civil_from_days (dt_wall dt / 86400) in
  let sod := dt_wall dt mod 86400 in
  year_str y ++ lit "-" ++ pad2 m ++ lit "-" ++ pad2 dd ++ lit " "
    ++ pad2 (sod / 3600) ++ lit ":" ++ pad2 (sod mod 3600 / 60).

(** [time.struct_time] *)
Record struct_time := StructTime {
  tm_year : Z; tm_mon : Z; tm_mday : Z;
  tm_hour : Z; tm_min : Z; tm_sec : Z;
  tm_wday : Z; tm_yday : Z; tm_isdst : Z }.

Definition fits_int (v : Z) : bool := (- 2 ^ 31 <=? v) && (v <? 2 ^ 31).

(** Seconds since the epoch of the broken-down time read as UTC
    ([calendar.timegm]); the month is normalised first. *)
Definition timegm (tt : struct_time) : Z :=
  let y := tm_year tt + (tm_mon tt - 1) / 12 in
  let m := (tm_mon tt - 1) mod 12 + 1 in
  (days_from_civil y m 1 + (tm_mday tt - 1)) * 86400
  + tm_hour tt * 3600 + tm_min tt * 60 + tm_sec tt.

(** [time.mktime(tt)]: the broken-down time is read as LOCAL time.
    [localtz] is the UTC offset of the local standard time.  With
    [tm_isdst] zero, as in every struct feedparser delivers, the struct
    is read as standard time, whatever the season.  With a positive
    [tm_isdst] it is read as daylight saving time, one hour ahead of
    standard time (also where the zone has no such rule).  With a
    negative [tm_isdst] the library decides; standard time is what it
    finds where no daylight saving is in force.  Fields that do not fit
    a C [int], and a year whose distance to 1900 does not, raise
    [OverflowError]. *)
Definition mktime (localtz : Z) (tt : struct_time) : result Z :=
  if fits_int (tm_year tt) && fits_int (tm_mon tt) && fits_int (tm_mday tt)
     && fits_int (tm_hour tt) && fits_int (tm_min tt) && fits_int (tm_sec tt)
     && fits_int (tm_wday tt) && fits_int (tm_yday tt)
     && fits_int (tm_isdst tt) && fits_int (tm_year tt - 1900)
  then Ok (timegm tt - localtz - (if 0 <? tm_isdst tt then 3600 else 0))
  else Raise OverflowError.

End Datetime.
Import Datetime.

(* ===================================================================== *)
(** ** Feed entries, table rows and page events                           *)
(* ===================================================================== *)

(** The value stored under ["source"] in an entry: a dict (feedparser
    stores a [FeedParserDict], a subclass of [dict]) or anything else. *)
Inductive source_value : Type :=
| SrcDict (d : gmap str str)
| SrcOther.

(** One entry of [fp.entries], restricted to the four keys the script
    reads.  [None] is an absent key; for ["published_parsed"] it is also
    the value [None] that feedparser stores for a date it cannot parse. *)
Record entry := Entry {
  e_link : option str;
  e_title : option str;
  e_source : option source_value;
  e_published_parsed : option struct_time }.

(** One row of the table.  The ["source"] cell holds what [src.get]
    returned, which may be Python's [None]; [None] is kept as it is in
    the table (pandas up to 2.x; later versions may store a missing
    value of their own in its place). *)
Record row := Row {
  r_title : str;
  r_source : option str;
  r_published_jst : str;
  r_link : str }.

Abbreviation DataFrame := (list row).

(** What the script does to the outside world, in order. *)
Inductive event : Type :=
| Fetch (url : str)              (* feedparser.parse(url) *)
| StTitle (s : str)
| StCaption (s : str)
| StWarning (s : str)
| StInfo (s : str)
| StSubheader (s : str)
| StMarkdown (s : str)
| StWrite (s : str)
| StDataframe (df : DataFrame)
| StCode (s : str).

(* ===================================================================== *)
(** ** The effect monad                                                   *)
(* ===================================================================== *)

(** The environment of one script run: what the k-th reading of the
    system clock returns (POSIX seconds), the UTC offset of the
    machine's local standard time, and what [feedparser.parse] does
    with a URL: the entries it returns, or the exception it raises.
    (feedparser handles a URL that cannot be opened itself and then
    returns no entries; other failures, such as a connection closed
    while the answer is read, leave it as exceptions.) *)
Record env := Env {
  clock : nat -> Z;
  localtz : Z;
  feed : str -> result (list entry) }.

(** A computation reads the environment, counts the clock readings made
    so far and emits events; it returns a value or raises. *)
Definition M (A : Type) : Type := env -> nat -> result A * nat * list event.

Definition M_ret {A} (a : A) : M A := fun _ n => (Ok a, n, []).

Definition M_bind {A B} (m : M A) (k : A -> M B) : M B :=
  fun e n =>
    match m e n with
    | (Ok a, n1, ev1) =>
        match k a e n1 with
        | (r, n2, ev2) => (r, n2, ev1 ++ ev2)
        end
    | (Raise x, n1, ev1) => (Raise x, n1, ev1)
    end.

#[global] Instance M_mret : MRet M := @M_ret.
#[global] Instance M_mbind : MBind M := fun A B k m => M_bind m k.

Definition lift {A} (r : result A) : M A := fun _ n => (r, n, []).
Definition emit (ev : event) : M unit := fun _ n => (Ok tt, n, [ev]).
Definition read_clock : M Z := fun e n => (Ok (clock e n), S n, []).
Definition local_zone : M Z := fun e n => (Ok (localtz e), n, []).
Definition feedparser_parse (url : str) : M (list entry) :=
  fun e n => (feed e url, n, [Fetch url]).
(** [st.stop()] *)
Definition st_stop {A} : M A := lift (Raise StopException).

Fixpoint for_each {A} (l : list A) (body : A -> M unit) : M unit :=
  match l with
  | [] => mret tt
  | a :: r => body a;; for_each r body
  end.

(** Projections of the outcome of a run. *)
Definition outcome {A} (x : result A * nat * list event) : result A := x.1.1.
Definition reads {A} (x : result A * nat * list event) : nat := x.1.2.
Definition events {A} (x : result A * nat * list event) : list event := x.2.

(* ===================================================================== *)
(** ** Time helpers                                                       *)
(* ===================================================================== *)

(** [datetime.now(tz)] *)
Definition datetime_now (tz : Z) : M datetime :=
  t ← read_clock;
  lift (fromtimestamp t tz).

Definition xdaysago (x : Z) : M str :=
  now ← datetime_now JST;
  d ← lift (date_sub_days (to_date now) x);
  mret (isoformat d).

(** The body of the [try] block of [_published_to_jst]. *)
Definition _published_to_jst_try (ltz : Z) (e : entry)
  : result (option datetime) :=
  match e_published_parsed e with
  | None => Ok None                                   (* if not tt *)
  | Some tm =>
      epoch ← mktime ltz tm;
      dt ← utcfromtimestamp epoch;
      let dt_utc := replace_tzinfo dt UTC in
      r ← astimezone ltz dt_utc JST;
      Ok (Some r)
  end.

(** [except Exception: return None] *)
Definition _published_to_jst (ltz : Z) (e : entry) : option datetime :=
  match _published_to_jst_try ltz e with
  | Ok r => r
  | Raise _ => None
  end.

(* ===================================================================== *)
(** ** Feed fetcher and normaliser                                        *)
(* ===================================================================== *)

(** [l[:n]] *)
Definition slice_to {A} (n : Z) (l : list A) : list A :=
  if (0 <=? n)%Z then take (Z.to_nat n) l
  else take (length l - Z.to_nat (- n)) l.

(** The dict appended to [rows] for an entry whose link is [link]. *)
Definition make_row (ltz : Z) (e : entry) (link : str) : row :=
  let title := default [] (e_title e) in
  let src := default (SrcDict ∅) (e_source e) in
  let source :=
    match src with
    | SrcDict d => d !! lit "title"
    | SrcOther => Some []
    end in
  let published_jst := _published_to_jst ltz e in
  {| r_title := title;
     r_source := source;
     r_published_jst :=
       match published_jst with
       | Some dt => strftime_ymd_hm dt
       | None => []
       end;
     r_link := link |}.

(** One iteration of the [for] loop on the state [(rows, seen)]. *)
Definition loop_body (ltz : Z) (st : list row * gset str) (e : entry)
  : list row * gset str :=
  let '(rows, seen) := st in
  let link := default [] (e_link e) in
  if negb (truthy link) || bool_decide (link ∈ seen) then (rows, seen)
  else
    let seen := {[link]} ∪ seen in
    (rows ++ [make_row ltz e link], seen).

Definition normalise (ltz : Z) (entries : list entry) (limit : Z)
  : DataFrame :=
  (fold_left (loop_body ltz) (slice_to limit entries) ([], ∅)).1.

Definition google_news_to_table (rss_url : str) (limit : Z) : M DataFrame :=
  entries ← feedparser_parse rss_url;
  ltz ← local_zone;
  mret (normalise ltz entries limit).

(* ===================================================================== *)
(** ** Query builder                                                      *)
(* ===================================================================== *)

Definition EVENT_TERMS : str :=
  lit "イベント OR 開催 OR オープン OR 祭り OR 体験会 OR フェス OR 展示会 OR 展".

Definition build_query (place : str) : str :=
  let place := strip place in
  lit "(" ++ place ++ lit ") AND (" ++ EVENT_TERMS ++ lit ")".

(** [df.iloc[:n]] and [df.head(n)] *)
Definition iloc_to (n : Z) (df : DataFrame) : DataFrame := slice_to n df.
Definition head (n : Z) (df : DataFrame) : DataFrame := slice_to n df.

Definition q_to_tb (place : str) (add : str) : M (DataFrame * str * str) :=
  yesterday ← xdaysago 1;
  tomorrow ← xdaysago (-1);
  let query := build_query place in
  quoted ← lift (quote_plus query);
  let q_param :=
    lit "after:" ++ yesterday ++ lit "+before:" ++ tomorrow ++ lit "+"
      ++ quoted in
  let rss_url :=
    lit "https://news.google.com/rss/search?q=" ++ q_param
      ++ lit "&hl=ja&gl=JP&ceid=JP:ja" ++ add in
  table ← google_news_to_table rss_url 50;
  let df := iloc_to 20 table in
  mret (df, rss_url, query).

(* ===================================================================== *)
(** ** The page                                                           *)
(* ===================================================================== *)

(** Truth value of a ["source"] cell read back from the table: a
    string is true when not empty, and [None], which the table keeps as
    it is (see [row]), is false. *)
Definition source_truthy (s : option str) : bool :=
  match s with Some s => truthy s | None => false end.

(** The body of [for _, row in df.iterrows()]. *)
Definition render_card (r : row) : M unit :=
  let title_line :=
    lit "**[" ++ r_title r ++ lit "](" ++ r_link r ++ lit ")**" in
  let title_line :=
    if source_truthy (r_source r)
    then title_line ++ lit " · " ++ default [] (r_source r)
    else title_line in
  emit (StMarkdown title_line);;
  if truthy (r_published_jst r)
  then emit (StWrite (lit "🕒 " ++ r_published_jst r ++ lit "（JST）"))
  else mret tt.

(** One run of the script with the widget values [place] (text input),
    [max_rows] (slider) and [run] (button).  Page configuration, the
    widgets themselves and the nesting of containers are not events. *)
Definition script (place : str) (max_rows : Z) (run : bool) : M unit :=
  emit (StTitle (lit "📰 場所ニュース"));;
  emit (StCaption (lit "駅名/地名 → そこに関連したイベント関連ニュースを表示"));;
  if run then
    (if negb (truthy (strip place))
     then emit (StWarning (lit "駅名・地名を入力してください。"));; st_stop
     else mret tt);;
    '(df, rss_url, actual_query) ← q_to_tb place [];
    (if bool_decide (df = [])
     then emit (StInfo (lit "関連ニュースが見つかりませんでした。地名を広域（区/市/県）にするなどお試しください。"));;
          st_stop
     else mret tt);;
    let df := head max_rows df in
    emit (StSubheader (lit "関連記事"));;
    for_each df render_card;;
    emit (StDataframe df);;
    emit (StMarkdown (lit "**実際に使用したRSS URL**"));;
    emit (StCode rss_url)
  else
    emit (StInfo (lit "サイドバーに駅名（または地名）を入れて検索してください。検索語は自動でイベント関連語を含む形に組み立てます。")).

(** The rows the page shows: the tables handed to [st.dataframe]. *)
Fixpoint displayed (evs : list event) : list row :=
  match evs with
  | [] => []
  | StDataframe df :: r => df ++ displayed r
  | _ :: r => displayed r
  end.

(* ===================================================================== *)
(** ** Notions used to state the properties                               *)
(* ===================================================================== *)

(** No white space at either end. *)
Definition trimmed (s : str) : bool :=
  match s, rev s with
  | c :: _, d :: _ => negb (isspace c) && negb (isspace d)
  | _, _ => true
  end.

(** The eight event keywords of [EVENT_TERMS]. *)
Definition event_keywords : list str :=
  [lit "イベント"; lit "開催"; lit "オープン"; lit "祭り"; lit "体験会";
   lit "フェス"; lit "展示会"; lit "展"].

(** The calendar day, in the target zone, of a clock reading. *)
Definition jst_day (t : Z) : Z := ((t + JST) / 86400)%Z.

(** A clock reading whose day, the day before and the day after are
    dates that [datetime] can hold. *)
Definition clock_ok (t : Z) : Prop := (MINDAY < jst_day t < MAXDAY)%Z.

(** Code points that UTF-8 can encode: all but the surrogates. *)
Definition is_scalar (c : N) : bool :=
  ((c <? 0xD800) || ((0xE000 <=? c) && (c <? 0x110000)))%N.

Definition encodable (s : str) : Prop :=
  Forall (fun c => is_scalar c = true) s.

(** The request URL as the interface description gives it. *)
Definition spec_request_url (dateFrom dateTo quoted : str) : str :=
  lit "https://news.google.com/rss/search?q=after:" ++ dateFrom
    ++ lit "+before:" ++ dateTo ++ lit "+" ++ quoted
    ++ lit "&hl=ja&gl=JP&ceid=JP:ja".

(** [e.get("link", "")] *)
Definition link_of (e : entry) : str := default [] (e_link e).

(** The Article made from an entry. *)
Definition row_of (ltz : Z) (e : entry) : row := make_row ltz e (link_of e).

(** The entries that survive, in the words of the specification: an
    entry is skipped when its link is empty or was seen before, and
    kept otherwise. *)
Fixpoint spec_keep (seen : gset str) (es : list entry) : list entry :=
  match es with
  | [] => []
  | e :: r =>
      if bool_decide (link_of e = []) then spec_keep seen r
      else if bool_decide (link_of e ∈ seen) then spec_keep seen r
      else e :: spec_keep ({[link_of e]} ∪ seen) r
  end.

(** The distinct non-empty links of a list of entries. *)
Definition distinct_links (es : list entry) : gset str :=
  list_to_set (filter (fun l => l <> []) (List.map link_of es)).

(** The published time as the specification describes it: the struct is
    read as UTC and shown in the target zone. *)
Definition spec_published_jst (tm : struct_time) : datetime :=
  DateTime (timegm tm + JST) (Some JST).

(** Sample inputs. *)
Module Sample.

(** An entry with a link and a title only. *)
Definition bare_entry : entry :=
  Entry (Some (lit "https://example.com/a")) (Some (lit "t")) None None.

(** 2024-06-15 03:00:00 UTC, as feedparser reports it. *)
Definition june15 : struct_time := StructTime 2024 6 15 3 0 0 5 167 0.

Definition dated_entry : entry :=
  Entry (Some (lit "https://example.com/a")) (Some (lit "t")) None
        (Some june15).

(** A published time beyond the years [datetime] can hold. *)
Definition far_entry : entry :=
  Entry (Some (lit "https://example.com/b")) (Some (lit "u")) None
        (Some (StructTime 99999 1 1 0 0 0 0 1 0)).

(** A feed of [k] entries with pairwise distinct links. *)
Definition numbered_entry (i : nat) : entry :=
  Entry (Some (lit "https://example.com/" ++ [N.of_nat (65 + i)]))
        (Some (lit "t")) None None.

Definition feed_of (k : nat) : list entry :=
  List.map numbered_entry (seq 0 k).

(** Noon of 2024-06-15 in Japan, on a machine set to UTC, with a feed
    of [k] entries. *)
Definition noon_env (k : nat) : env :=
  Env (fun _ => 1718420400%Z) 0%Z (fun _ => Ok (feed_of k)).

(** The first reading at 00:00:00 and the next at 23:59:59 of
    2024-06-15 in Japan. *)
Definition day_env : env :=
  Env (fun k => match k with O => 1718377200%Z | _ => 1718463599%Z end)
      0%Z (fun _ => Ok (feed_of 3)).

(** The encoded query for the place 渋谷駅. *)
Definition shibuya_quoted : str :=
  lit "%28%E6%B8%8B%E8%B0%B7%E9%A7%85%29+AND+%28%E3%82%A4%E3%83%99%E3%83%B3%E3%83%88+OR+%E9%96%8B%E5%82%AC+OR+%E3%82%AA%E3%83%BC%E3%83%97%E3%83%B3+OR+%E7%A5%AD%E3%82%8A+OR+%E4%BD%93%E9%A8%93%E4%BC%9A+OR+%E3%83%95%E3%82%A7%E3%82%B9+OR+%E5%B1%95%E7%A4%BA%E4%BC%9A+OR+%E5%B1%95%29".

(** The server closes the connection without an answer, which
    [feedparser.parse] does not handle. *)
Definition down_env : env :=
  Env (fun _ => 1718420400%Z) 0%Z (fun _ => Raise RemoteDisconnected).

(** A request begun at 23:59:59 of 2024-06-15 in Japan, whose second
    clock reading falls at 00:00:00 of the next day. *)
Definition midnight_env : env :=
  Env (fun k => match k with O => 1718463599%Z | _ => 1718463600%Z end)
      0%Z (fun _ => Ok (feed_of 3)).

(** Entries that name their source. *)
Definition sourced_entry (i : nat) : entry :=
  Entry (Some (lit "https://example.com/" ++ [N.of_nat (65 + i)]))
        (Some (lit "t"))
        (Some (SrcDict {[ lit "title" := lit "NHK" ]})) None.

Definition sourced_env (k : nat) : env :=
  Env (fun _ => 1718420400%Z) 0%Z
      (fun _ => Ok (List.map sourced_entry (seq 0 k))).

(** A feed whose entries carry no link. *)
Definition linkless_env : env :=
  Env (fun _ => 1718420400%Z) 0%Z
      (fun _ => Ok [Entry None (Some (lit "t")) None None;
                    Entry (Some []) (Some (lit "u")) None None]).

End Sample.

(** The URL that the request made at the n-th clock reading asks for. *)
Definition the_request_url (e : env) (n : nat) (quoted : str) : str :=
  spec_request_url
    (isoformat (Date (jst_day (clock e n) - 1)))
    (isoformat (Date (jst_day (clock e (S n)) + 1))) quoted.

(** The shape [YYYY-MM-DD]: ten characters, digits around two hyphens. *)
Definition is_digit (c : N) : bool := ((48 <=? c) && (c <=? 57))%N.

Definition is_iso_date (s : str) : bool :=
  match s with
  | [y1; y2; y3; y4; h1; m1; m2; h2; d1; d2] =>
      forallb is_digit [y1; y2; y3; y4; m1; m2; d1; d2]
      && (h1 =? 45)%N && (h2 =? 45)%N
  | _ => false
  end.

(** The characters [quote_plus] produces: the always-safe ones, [+]
    and [%]. *)
Definition url_safe (c : N) : bool :=
  always_safe c || (c =? 0x2B)%N || (c =? 0x25)%N.

(** The shape [YYYY-MM-DD HH:MM]. *)
Definition is_stamp (s : str) : bool :=
  match s with
  | [y1; y2; y3; y4; h1; m1; m2; h2; d1; d2; sp; a1; a2; co; b1; b2] =>
      forallb is_digit [y1; y2; y3; y4; m1; m2; d1; d2; a1; a2; b1; b2]
      && (h1 =? 45)%N && (h2 =? 45)%N && (sp =? 32)%N && (co =? 58)%N
  | _ => false
  end.

(** The year a [datetime] shows. *)
Definition dt_year (dt : datetime) : Z :=
  (civil_from_days (dt_wall dt / 86400)).1.1.

(** The URLs of the fetches among the events of a run. *)
Fixpoint fetches (evs : list event) : list str :=
  match evs with
  | [] => []
  | Fetch url :: r => url :: fetches r
  | _ :: r => fetches r
  end.

(** What one card puts on the page: the linked title, followed by the
    source when there is one, and the time when there is one. *)
Definition card_events (r : row) : list event :=
  let title_line :=
    lit "**[" ++ r_title r ++ lit "](" ++ r_link r ++ lit ")**" in
  StMarkdown
    (if source_truthy (r_source r)
     then title_line ++ lit " · " ++ default [] (r_source r)
     else title_line)
  :: (if truthy (r_published_jst r)
      then [StWrite (lit "🕒 " ++ r_published_jst r ++ lit "（JST）")]
      else []).

(** The heading of every run, and the messages of the page. *)
Definition page_heading : list event :=
  [StTitle (lit "📰 場所ニュース");
   StCaption (lit "駅名/地名 → そこに関連したイベント関連ニュースを表示")].

Definition msg_no_place : str := lit "駅名・地名を入力してください。".
Definition msg_not_found : str :=
  lit "関連ニュースが見つかりませんでした。地名を広域（区/市/県）にするなどお試しください。".
Definition msg_idle : str :=
  lit "サイドバーに駅名（または地名）を入れて検索してください。検索語は自動でイベント関連語を含む形に組み立てます。".

(** What the page does once [q_to_tb] has answered [r]. *)
Definition page_after (max_rows : Z) (r : result (DataFrame * str * str))
  : result unit * list event :=
  match r with
  | Ok (df, url, _) =>
      if bool_decide (df = []) then (Raise StopException, [StInfo msg_not_found])
      else (Ok tt,
            StSubheader (lit "関連記事")
              :: concat (List.map card_events (head max_rows df))
              ++ [StDataframe (head max_rows df);
                  StMarkdown (lit "**実際に使用したRSS URL**");
                  StCode url])
  | Raise x => (Raise x, [])
  end.

(* ===================================================================== *)
(** ** Facts about strings                                                *)
(* ===================================================================== *)

Section StringFacts.

Lemma lstrip_all_space (s : str) :
  Forall (fun c => isspace c = true) s -> lstrip s = [].
Proof.
  induction 1 as [|c r Hc _ IH]; simpl; [done|].
  by rewrite Hc.
Qed.

Lemma strip_all_space (s : str) :
  Forall (fun c => isspace c = true) s -> strip s = [].
Proof.
  intros H. unfold strip. by rewrite (lstrip_all_space s H).
Qed.

Lemma lstrip_suffix (s : str) : exists pre, s = pre ++ lstrip s.
Proof.
  induction s as [|c r [pre IH]]; simpl.
  - by exists [].
  - destruct (isspace c).
    + exists (c :: pre). simpl. by f_equal.
    + by exists [].
Qed.

Lemma lstrip_Forall (P : N -> Prop) (s : str) :
  Forall P s -> Forall P (lstrip s).
Proof.
  intros H. destruct (lstrip_suffix s) as [pre E].
  rewrite E in H. by apply Forall_app in H as [_ H].
Qed.

Lemma strip_Forall (P : N -> Prop) (s : str) :
  Forall P s -> Forall P (strip s).
Proof.
  intros H. unfold strip, rstrip.
  apply Forall_rev, lstrip_Forall, Forall_rev, lstrip_Forall, H.
Qed.

Lemma strip_trimmed (s : str) : trimmed s = true -> strip s = s.
Proof.
  unfold trimmed, strip, rstrip. intros H.
  destruct s as [|c r]; [done|].
  destruct (rev (c :: r)) as [|d q] eqn:E.
  - apply (f_equal length) in E. rewrite length_rev in E. done.
  - apply andb_prop in H as [Hc Hd].
    apply negb_true_iff in Hc, Hd.
    cbn [lstrip]. rewrite Hc, E. cbn [lstrip]. rewrite Hd.
    by rewrite <- E, rev_involutive.
Qed.

End StringFacts.

(* ===================================================================== *)
(** ** The query builder                                                  *)
(* ===================================================================== *)

Lemma EVENT_TERMS_disjunction :
  EVENT_TERMS = join (lit " OR ") event_keywords
  /\ length event_keywords = 8%nat.
Proof. split; reflexivity. Qed.

Lemma build_query_strip (p : str) :
  build_query p
  = lit "(" ++ strip p ++ lit ") AND (" ++ EVENT_TERMS ++ lit ")".
Proof. reflexivity. Qed.

(** C2, as stated, fails: the place is stripped before it is put in the
    first group, so a place with white space at an end does not appear
    verbatim there, whatever surrounds it. *)
Lemma build_query_not_verbatim :
  let p := lit " 渋谷駅" in
  p <> [] /\
  ~ exists pre post,
      build_query p
      = lit "(" ++ pre ++ p ++ post ++ lit ") AND (" ++ EVENT_TERMS ++ lit ")".
Proof.
  split; [done|].
  intros (pre & post & H).
  apply (f_equal length) in H.
  rewrite build_query_strip in H.
  rewrite !length_app in H.
  change (length (strip (lit " 渋谷駅"))) with 3%nat in H.
  change (length (lit " 渋谷駅")) with 4%nat in H.
  lia.
Qed.

(* ===================================================================== *)
(** ** Facts about dates and URL quoting                                  *)
(* ===================================================================== *)

Section LibraryFacts.
Local Open Scope Z_scope.

(** Within the range of [datetime], the civil fields have the sizes
    the formats ["%04d"] and ["%02d"] assume. *)
Lemma civil_from_days_range (z : Z) :
  day_in_range z = true ->
  exists y m d,
    civil_from_days z = (y, m, d)
    /\ 1 <= y <= 9999 /\ 1 <= m <= 12 /\ 1 <= d <= 31.
Proof.
  unfold day_in_range, MINDAY, MAXDAY. intros H.
  apply andb_prop in H as [H1 H2].
  apply Z.leb_le in H1, H2.
  unfold civil_from_days. cbv zeta.
  eexists _, _, _. split; [reflexivity|].
  destruct (_ <? 10) eqn:E1;
    [apply Z.ltb_lt in E1 | apply Z.ltb_ge in E1];
    (destruct (_ <=? 2) eqn:E2;
     [apply Z.leb_le in E2 | apply Z.leb_gt in E2]);
    Z.div_mod_to_equations; lia.
Qed.

Lemma day_in_range_spec (z : Z) :
  day_in_range z = true <-> MINDAY <= z <= MAXDAY.
Proof.
  unfold day_in_range. rewrite andb_true_iff, !Z.leb_le. tauto.
Qed.

(** A value whose UTC day lies in the years of [datetime] passes the
    first steps of the conversions. *)
Lemma utc_fields_check_ok (t : Z) :
  day_in_range (t / 86400) = true -> utc_fields_check t = Ok tt.
Proof.
  intros H. unfold utc_fields_check. rewrite H.
  apply day_in_range_spec in H. unfold MINDAY, MAXDAY in H.
  assert (Hb : -62135596800 <= t < 253402300800)
    by (Z.div_mod_to_equations; lia).
  rewrite (proj2 (Z.leb_le _ _)) by lia.
  rewrite (proj2 (Z.ltb_lt _ _)) by lia.
  unfold GMTIME_MIN, GMTIME_MAX.
  rewrite (proj2 (Z.leb_le _ t)) by lia.
  rewrite (proj2 (Z.leb_le t _)) by lia.
  reflexivity.
Qed.

Lemma is_digit_digit (n : Z) : is_digit (digit n) = true.
Proof.
  unfold is_digit, digit.
  pose proof (Z.mod_pos_bound n 10 ltac:(lia)) as H.
  apply andb_true_intro. split; apply N.leb_le; lia.
Qed.

Lemma isoformat_is_iso_date (d : date) : is_iso_date (isoformat d) = true.
Proof.
  unfold isoformat. destruct (civil_from_days (date_days d)) as [[y m] dd].
  unfold pad4, pad2. change (lit "-") with [45%N]. cbn [app].
  unfold is_iso_date, forallb.
  rewrite !is_digit_digit. reflexivity.
Qed.

Lemma utf8_encode_char_scalar (c : N) :
  is_scalar c = true -> exists bs, utf8_encode_char c = Ok bs.
Proof.
  unfold is_scalar, utf8_encode_char. intros H.
  assert (Hs : (c < 0xD800 \/ 0xE000 <= c < 0x110000)%N).
  { apply orb_prop in H as [H|H].
    - left. by apply N.ltb_lt.
    - right. apply andb_prop in H as [Ha Hb].
      split; [by apply N.leb_le | by apply N.ltb_lt]. }
  clear H.
  destruct (N.ltb_spec c 0x80); [eauto|].
  destruct (N.ltb_spec c 0x800); [eauto|].
  destruct (N.ltb_spec c 0x10000).
  - destruct (N.leb_spec 0xD800 c); [|simpl; eauto].
    destruct (N.ltb_spec c 0xE000); [lia|simpl; eauto].
  - destruct (N.ltb_spec c 0x110000); [eauto|lia].
Qed.

Lemma utf8_encode_encodable (s : str) :
  encodable s -> exists bs, utf8_encode s = Ok bs.
Proof.
  induction 1 as [|c r Hc _ [bs IH]]; simpl; [eauto|].
  destruct (utf8_encode_char_scalar c Hc) as [b ->].
  rewrite IH. simpl. eauto.
Qed.

Lemma quote_plus_encodable (s : str) :
  encodable s -> exists quoted, quote_plus s = Ok quoted.
Proof.
  intros H. destruct (utf8_encode_encodable s H) as [bs E].
  unfold quote_plus. rewrite E. simpl. eauto.
Qed.

Lemma encodable_forallb (s : str) :
  forallb is_scalar s = true -> encodable s.
Proof.
  intros H. apply List.Forall_forall. by apply forallb_forall.
Qed.

Lemma build_query_encodable (place : str) :
  encodable place -> encodable (build_query place).
Proof.
  intros H. rewrite build_query_strip. unfold encodable.
  rewrite !Forall_app. repeat split;
    try (apply encodable_forallb; vm_compute; reflexivity).
  by apply strip_Forall.
Qed.

End LibraryFacts.

(* ===================================================================== *)
(** ** Running the time helper and the query builder                      *)
(* ===================================================================== *)

Ltac unfold_M :=
  unfold mbind, M_mbind, M_bind, mret, M_mret, M_ret, lift, emit,
    read_clock, local_zone, feedparser_parse, st_stop.

Section Running.
Variable (e : env).

Lemma xdaysago_run (n : nat) (x : Z) :
  day_in_range (clock e n / 86400) = true ->
  day_in_range (jst_day (clock e n)) = true ->
  day_in_range (jst_day (clock e n) - x) = true ->
  xdaysago x e n = (Ok (isoformat (Date (jst_day (clock e n) - x))), S n, []).
Proof.
  intros H0 H1 H2. unfold xdaysago, datetime_now. unfold_M.
  unfold fromtimestamp, jst_day in *.
  rewrite (utc_fields_check_ok _ H0). cbn. rewrite H1.
  unfold date_sub_days, to_date. cbn [dt_wall date_days]. rewrite H2.
  reflexivity.
Qed.

Lemma xdaysago_clock_ok (n : nat) (x : Z) :
  clock_ok (clock e n) -> (-1 <= x <= 1)%Z ->
  xdaysago x e n = (Ok (isoformat (Date (jst_day (clock e n) - x))), S n, []).
Proof.
  unfold clock_ok. intros H Hx.
  apply xdaysago_run; apply day_in_range_spec; try lia.
  unfold jst_day, JST, MINDAY, MAXDAY in *.
  Z.div_mod_to_equations. lia.
Qed.

Lemma request_url_assoc (dateFrom dateTo quoted add : str) :
  lit "https://news.google.com/rss/search?q="
    ++ (lit "after:" ++ dateFrom ++ lit "+before:" ++ dateTo ++ lit "+"
          ++ quoted)
    ++ lit "&hl=ja&gl=JP&ceid=JP:ja" ++ add
  = spec_request_url dateFrom dateTo quoted ++ add.
Proof.
  unfold spec_request_url. rewrite <- !app_assoc. reflexivity.
Qed.

(** One call of [q_to_tb]: two clock readings, one fetch. *)
Lemma q_to_tb_run (n : nat) (place add quoted : str) :
  clock_ok (clock e n) -> clock_ok (clock e (S n)) ->
  quote_plus (build_query place) = Ok quoted ->
  let url := the_request_url e n quoted ++ add in
  q_to_tb place add e n
  = (rbind (feed e url)
       (fun entries =>
          Ok (iloc_to 20 (normalise (localtz e) entries 50), url,
              build_query place)),
     S (S n), [Fetch url]).
Proof.
  intros H1 H2 Hq url. subst url. unfold the_request_url, q_to_tb.
  unfold mbind at 1. unfold M_mbind, M_bind.
  rewrite xdaysago_clock_ok by (done || lia).
  unfold mbind at 1. unfold M_mbind, M_bind.
  rewrite xdaysago_clock_ok by (done || lia).
  replace (jst_day (clock e (S n)) - -1)%Z
    with (jst_day (clock e (S n)) + 1)%Z by lia.
  rewrite Hq. unfold google_news_to_table. unfold_M.
  rewrite request_url_assoc.
  generalize (spec_request_url
                (isoformat (Date (jst_day (clock e n) - 1)))
                (isoformat (Date (jst_day (clock e (S n)) + 1))) quoted
                ++ add).
  intros url. destruct (feed e url); reflexivity.
Qed.

End Running.

(* ===================================================================== *)
(** ** The normaliser                                                     *)
(* ===================================================================== *)

Section Normaliser.
Variable (ltz : Z).

Lemma truthy_nil (s : str) : negb (truthy s) = bool_decide (s = []).
Proof. by destruct s. Qed.

Lemma r_link_row_of (e : entry) : r_link (row_of ltz e) = link_of e.
Proof. reflexivity. Qed.

(** The loop computes the rows of the kept entries. *)
Lemma loop_spec_keep (es : list entry) (rows : list row) (seen : gset str) :
  (fold_left (loop_body ltz) es (rows, seen)).1
  = rows ++ List.map (row_of ltz) (spec_keep seen es).
Proof.
  revert rows seen.
  induction es as [|e r IH]; intros rows seen; simpl.
  - by rewrite app_nil_r.
  - fold (link_of e). rewrite truthy_nil.
    destruct (bool_decide (link_of e = [])); simpl; [apply IH|].
    destruct (bool_decide (link_of e ∈ seen)); simpl; [apply IH|].
    rewrite IH, <- app_assoc. reflexivity.
Qed.

Lemma normalise_spec_keep (entries : list entry) (limit : Z) :
  normalise ltz entries limit
  = List.map (row_of ltz) (spec_keep ∅ (slice_to limit entries)).
Proof. unfold normalise. by rewrite loop_spec_keep. Qed.

Lemma spec_keep_sublist (es : list entry) (seen : gset str) :
  spec_keep seen es `sublist_of` es.
Proof.
  revert seen. induction es as [|e r IH]; intros seen; simpl.
  - constructor.
  - repeat case_bool_decide; try (apply sublist_cons, IH).
    apply sublist_skip, IH.
Qed.

Lemma spec_keep_fresh (es : list entry) (seen : gset str) (e : entry) :
  e ∈ spec_keep seen es -> link_of e <> [] /\ link_of e ∉ seen.
Proof.
  revert seen. induction es as [|a r IH]; intros seen; simpl.
  - intros H. by apply elem_of_nil in H.
  - repeat case_bool_decide; try apply IH.
    intros Hin. apply elem_of_cons in Hin as [->|Hin]; [done|].
    destruct (IH _ Hin) as [Hin1 Hin2]. split; [done|set_solver].
Qed.

Lemma spec_keep_NoDup (es : list entry) (seen : gset str) :
  NoDup (List.map link_of (spec_keep seen es)).
Proof.
  revert seen. induction es as [|a r IH]; intros seen; simpl.
  - constructor.
  - repeat case_bool_decide; try apply IH.
    simpl. constructor; [|apply IH].
    intros Hin. apply list_elem_of_In, in_map_iff in Hin as (e & He & Hin).
    apply list_elem_of_In, spec_keep_fresh in Hin as [_ Hin].
    rewrite He in Hin. set_solver.
Qed.

(** The first entry that carries a link is kept. *)
Lemma spec_keep_first (es : list entry) (seen : gset str) (i : nat)
      (e : entry) :
  es !! i = Some e ->
  link_of e <> [] -> link_of e ∉ seen ->
  (forall j e', (j < i)%nat -> es !! j = Some e' -> link_of e' <> link_of e) ->
  e ∈ spec_keep seen es.
Proof.
  revert seen i. induction es as [|a r IH]; intros seen i Hi Hne Hs Hfirst.
  - done.
  - destruct i as [|i]; simpl in Hi.
    + injection Hi as ->. simpl.
      rewrite !bool_decide_eq_false_2 by done. apply list_elem_of_here.
    + assert (Ha : link_of a <> link_of e)
        by (apply (Hfirst 0%nat a); [lia|done]).
      assert (Hr : forall j e', (j < i)%nat -> r !! j = Some e' ->
                                 link_of e' <> link_of e)
        by (intros j e' Hj He'; apply (Hfirst (S j) e'); [lia|done]).
      simpl. repeat case_bool_decide.
      * by apply (IH seen i).
      * by apply (IH seen i).
      * apply list_elem_of_further, (IH _ i); [done|done| |done].
        set_solver.
Qed.

Lemma distinct_links_cons (e : entry) (r : list entry) :
  distinct_links (e :: r)
  = if bool_decide (link_of e = []) then distinct_links r
    else {[link_of e]} ∪ distinct_links r.
Proof.
  unfold distinct_links. simpl. rewrite filter_cons.
  case_bool_decide; case_decide; done.
Qed.

Lemma difference_seen (l : str) (D seen : gset str) :
  l ∈ seen -> ({[l]} ∪ D) ∖ seen = D ∖ seen.
Proof. set_solver. Qed.

Lemma size_difference_fresh (l : str) (D seen : gset str) :
  l ∉ seen ->
  size (({[l]} ∪ D) ∖ seen) = S (size (D ∖ ({[l]} ∪ seen))).
Proof.
  intros Hl.
  replace (({[l]} ∪ D) ∖ seen) with ({[l]} ∪ D ∖ ({[l]} ∪ seen)).
  - rewrite size_union by set_solver. by rewrite size_singleton.
  - apply set_eq. intros x. destruct (decide (x = l)); set_solver.
Qed.

(** As many rows as there are distinct non-empty links. *)
Lemma spec_keep_length (es : list entry) (seen : gset str) :
  length (spec_keep seen es) = size (distinct_links es ∖ seen).
Proof.
  revert seen. induction es as [|a r IH]; intros seen.
  - simpl. unfold distinct_links. simpl.
    by rewrite difference_disjoint_L, size_empty by set_solver.
  - simpl. rewrite distinct_links_cons.
    case_bool_decide as H1; [apply IH|].
    case_bool_decide as H2.
    + by rewrite IH, difference_seen.
    + simpl. by rewrite IH, size_difference_fresh.
Qed.

Lemma normalise_length (entries : list entry) (limit : Z) :
  length (normalise ltz entries limit)
  = size (distinct_links (slice_to limit entries)).
Proof.
  rewrite normalise_spec_keep, length_map, spec_keep_length.
  by rewrite difference_empty_L.
Qed.

Lemma normalise_first (entries : list entry) (limit : Z) (i : nat)
      (e : entry) :
  slice_to limit entries !! i = Some e ->
  link_of e <> [] ->
  (forall j e', (j < i)%nat -> slice_to limit entries !! j = Some e' ->
                link_of e' <> link_of e) ->
  row_of ltz e ∈ normalise ltz entries limit.
Proof.
  intros Hi Hne Hfirst. rewrite normalise_spec_keep.
  apply list_elem_of_In, in_map, list_elem_of_In.
  by apply (spec_keep_first _ ∅ i e).
Qed.

End Normaliser.

(* ===================================================================== *)
(** ** Properties of the feed normaliser                                  *)
(* ===================================================================== *)

(** C5: the normaliser keeps exactly the entries of the specification's
    rule (skip an entry whose link is empty or was seen before); the
    links of the result are pairwise distinct and non-empty, the rows
    are those of a subsequence of the considered entries in feed order,
    and the first entry carrying a given non-empty link is the one that
    is kept. *)
Theorem normalise_dedup (ltz : Z) (entries : list entry) (limit : Z) :
  let considered := slice_to limit entries in
  let rows := normalise ltz entries limit in
  rows = List.map (row_of ltz) (spec_keep ∅ considered)
  /\ NoDup (List.map r_link rows)
  /\ (forall r, r ∈ rows -> r_link r <> [])
  /\ (exists kept,
        kept `sublist_of` considered /\ rows = List.map (row_of ltz) kept)
  /\ (forall i e,
        considered !! i = Some e ->
        link_of e <> [] ->
        (forall j e', (j < i)%nat -> considered !! j = Some e' ->
                      link_of e' <> link_of e) ->
        row_of ltz e ∈ rows).
Proof.
  intros considered rows.
  assert (E : rows = List.map (row_of ltz) (spec_keep ∅ considered))
    by apply normalise_spec_keep.
  split; [done|]. rewrite E. repeat split.
  - rewrite map_map. apply (spec_keep_NoDup considered ∅).
  - intros r Hr.
    apply list_elem_of_In, in_map_iff in Hr as (e & <- & He).
    apply list_elem_of_In, spec_keep_fresh in He as [He _]. done.
  - exists (spec_keep ∅ considered). split; [apply spec_keep_sublist|done].
  - intros i e Hi Hne Hfirst. rewrite <- E.
    by apply (normalise_first ltz entries limit i e).
Qed.

(** C7: when an entry has no published time, or converting it raises,
    [_published_to_jst] answers [None] instead of raising; the row of
    the entry carries the empty timestamp, the entry is still emitted
    when it is the first with its link, and the table is returned
    whatever the timestamps of the feed are. *)
Theorem timestamp_failure_absorbed (ltz : Z) (e : entry) :
  (e_published_parsed e = None
   \/ exists x, _published_to_jst_try ltz e = Raise x) ->
  _published_to_jst ltz e = None
  /\ r_published_jst (row_of ltz e) = []
  /\ (forall entries limit i,
        slice_to limit entries !! i = Some e ->
        link_of e <> [] ->
        (forall j e', (j < i)%nat -> slice_to limit entries !! j = Some e' ->
                      link_of e' <> link_of e) ->
        row_of ltz e ∈ normalise ltz entries limit)
  /\ (forall env n url limit entries,
        feed env url = Ok entries ->
        outcome (google_news_to_table url limit env n)
        = Ok (normalise (localtz env) entries limit)).
Proof.
  intros H.
  assert (E : _published_to_jst ltz e = None).
  { unfold _published_to_jst. destruct H as [H|[x H]].
    - unfold _published_to_jst_try. by rewrite H.
    - by rewrite H. }
  split; [done|]. split; [|split].
  - unfold row_of, make_row. cbn [r_published_jst]. by rewrite E.
  - intros entries limit i Hi Hne Hfirst.
    by apply (normalise_first ltz entries limit i e).
  - intros env n url limit entries Hfeed.
    unfold google_news_to_table. unfold_M. by rewrite Hfeed.
Qed.

Lemma timestamp_failure_absorbed_witness :
  _published_to_jst_try 0 Sample.far_entry = Raise ValueError
  /\ _published_to_jst 0 Sample.far_entry = None
  /\ normalise 0 [Sample.bare_entry; Sample.far_entry] 50
     = [Row (lit "t") None [] (lit "https://example.com/a");
        Row (lit "u") None [] (lit "https://example.com/b")].
Proof.
  split; [reflexivity|].
  split; [|vm_compute; reflexivity].
  apply (timestamp_failure_absorbed 0 Sample.far_entry).
  right. exists ValueError. reflexivity.
Defined.

(** What the ["source"] cell holds, case by case. *)
Lemma source_cell (ltz : Z) (e : entry) :
  r_source (row_of ltz e)
  = match e_source e with
    | None => None
    | Some (SrcDict d) => d !! lit "title"
    | Some SrcOther => Some []
    end.
Proof.
  unfold row_of, make_row. cbn [r_source].
  destruct (e_source e) as [[d|]|]; reflexivity.
Qed.

(** C8 (the code departs from it): an entry without a source descriptor
    gets Python's [None] in its ["source"] cell, not the empty string;
    so does an entry whose descriptor is a dict without a title.  Only a
    descriptor that is not a dict gives the empty string. *)
Theorem source_missing_is_none :
  normalise 0 [Sample.bare_entry] 50
  = [Row (lit "t") None [] (lit "https://example.com/a")]
  /\ (forall ltz e, e_source e = None -> r_source (row_of ltz e) = None)
  /\ (forall ltz e, e_source e = Some (SrcDict ∅) ->
                    r_source (row_of ltz e) = None)
  /\ (forall ltz e, e_source e = Some SrcOther ->
                    r_source (row_of ltz e) = Some [])
  /\ (forall ltz e d t, e_source e = Some (SrcDict d) ->
                        d !! lit "title" = Some t ->
                        r_source (row_of ltz e) = Some t).
Proof.
  split; [vm_compute; reflexivity|].
  repeat split; intros; rewrite source_cell; by simplify_option_eq.
Qed.

(** The published time that the code computes for a struct as
    feedparser delivers it: the struct read in the machine's local
    standard time, not in UTC. *)
Lemma published_local_shift (ltz : Z) (e : entry) (tm : struct_time)
      (dt : datetime) :
  e_published_parsed e = Some tm ->
  tm_isdst tm = 0%Z ->
  _published_to_jst ltz e = Some dt ->
  dt = DateTime (timegm tm - ltz + JST) (Some JST).
Proof.
  unfold _published_to_jst, _published_to_jst_try. intros -> Hdst H.
  unfold mktime in H. rewrite Hdst in H. destruct (_ && _); [|done].
  cbn in H. unfold utcfromtimestamp in H.
  destruct (utc_fields_check _) as [[]|]; [|done].
  cbn in H. unfold astimezone in H. cbn in H.
  destruct (day_in_range _); [|done].
  cbn in H. injection H as <-. f_equal. unfold UTC. lia.
Qed.

(** C6 (the code departs from it): on a machine whose local zone is
    JST, the entry published at 2024-06-15 03:00 UTC is shown as
    03:00, where the conversion to JST gives 12:00.  The two agree
    when the machine's local zone is UTC. *)
Theorem published_jst_depends_on_local_zone :
  r_published_jst (row_of JST Sample.dated_entry) = lit "2024-06-15 03:00"
  /\ strftime_ymd_hm (spec_published_jst Sample.june15)
     = lit "2024-06-15 12:00"
  /\ _published_to_jst UTC Sample.dated_entry
     = Some (spec_published_jst Sample.june15).
Proof. repeat split; vm_compute; reflexivity. Qed.

(* ===================================================================== *)
(** ** Running the page                                                   *)
(* ===================================================================== *)

Section Page.
Variable (e : env).

Lemma displayed_app (a b : list event) :
  displayed (a ++ b) = displayed a ++ displayed b.
Proof.
  induction a as [|ev a IH]; [done|].
  destruct ev; simpl; rewrite ?IH; try done.
  by rewrite app_assoc.
Qed.

Lemma slice_to_nil {A} (k : Z) : slice_to k (@nil A) = [].
Proof. unfold slice_to. destruct (0 <=? k)%Z; by rewrite take_nil. Qed.

Lemma slice_to_nonneg {A} (k : Z) (l : list A) :
  (0 <= k)%Z -> slice_to k l = take (Z.to_nat k) l.
Proof.
  intros H. unfold slice_to.
  by rewrite (proj2 (Z.leb_le 0 k) H).
Qed.

Lemma slice_to_length {A} (k : Z) (l : list A) :
  (length (slice_to k l) <= length l)%nat.
Proof.
  unfold slice_to. destruct (0 <=? k)%Z; rewrite length_take; lia.
Qed.

(** The cards are markdown and text only, and never raise. *)
Lemma render_card_run (r : row) (n : nat) :
  exists evs,
    render_card r e n = (Ok tt, n, evs) /\ displayed evs = [].
Proof.
  unfold render_card. unfold_M.
  destruct (truthy (r_published_jst r)); eexists; split; reflexivity.
Qed.

Lemma for_each_cards (df : DataFrame) (n : nat) :
  exists evs,
    for_each df render_card e n = (Ok tt, n, evs) /\ displayed evs = [].
Proof.
  induction df as [|r df (evs & IH & Hd)].
  - by exists [].
  - cbn [for_each]. unfold mbind, M_mbind, M_bind.
    destruct (render_card_run r n) as (ev1 & -> & Hd1). rewrite IH.
    exists (ev1 ++ evs). split; [done|].
    by rewrite displayed_app, Hd1, Hd.
Qed.

Lemma xdaysago_silent (x : Z) (n : nat) :
  exists r, xdaysago x e n = (r, S n, []).
Proof.
  unfold xdaysago, datetime_now. unfold_M.
  destruct (fromtimestamp _ _); [|by eauto].
  destruct (date_sub_days _ _); by eauto.
Qed.

(** Every call of [q_to_tb] starts by reading the clock. *)
Lemma q_to_tb_reads (n : nat) (place add : str) :
  (n < reads (q_to_tb place add e n))%nat.
Proof.
  unfold q_to_tb. unfold mbind at 1. unfold M_mbind, M_bind.
  destruct (xdaysago_silent 1 n) as ([y|x] & ->); [|cbn; lia].
  unfold mbind at 1. unfold M_mbind, M_bind.
  destruct (xdaysago_silent (-1) (S n)) as ([t|x] & ->); [|cbn; lia].
  unfold google_news_to_table. unfold_M.
  destruct (quote_plus (build_query place)) as [quoted|x]; [|cbn; lia].
  destruct (feed e _) as [entries|x]; cbn; lia.
Qed.

(** The events of [q_to_tb]: at most the fetch. *)
Lemma q_to_tb_displayed (n : nat) (place add : str) :
  displayed (events (q_to_tb place add e n)) = [].
Proof.
  unfold q_to_tb. unfold mbind at 1. unfold M_mbind, M_bind.
  destruct (xdaysago_silent 1 n) as ([y|x] & ->); [|done].
  unfold mbind at 1. unfold M_mbind, M_bind.
  destruct (xdaysago_silent (-1) (S n)) as ([t|x] & ->); [|done].
  unfold google_news_to_table. unfold_M.
  destruct (quote_plus (build_query place)) as [quoted|x]; [|done].
  by destruct (feed e _) as [entries|x].
Qed.

(** What a call of [q_to_tb] that returns has done. *)
Lemma q_to_tb_inv (n : nat) (place add : str) (df : DataFrame)
      (url q : str) :
  outcome (q_to_tb place add e n) = Ok (df, url, q) ->
  exists entries,
    feed e url = Ok entries
    /\ df = iloc_to 20 (normalise (localtz e) entries 50)
    /\ q = build_query place.
Proof.
  unfold q_to_tb. unfold mbind at 1. unfold M_mbind, M_bind.
  destruct (xdaysago_silent 1 n) as ([y|x] & ->); [|done].
  unfold mbind at 1. unfold M_mbind, M_bind.
  destruct (xdaysago_silent (-1) (S n)) as ([t|x] & ->); [|done].
  unfold google_news_to_table. unfold_M.
  destruct (quote_plus (build_query place)) as [quoted|x]; [|done].
  destruct (feed e _) as [entries|x] eqn:Ef; [|done].
  unfold outcome. cbn [fst].
  intros [= Hdf Hurl Hq]. subst df url q. by exists entries.
Qed.

(** The rows the page shows, in every case. *)
Lemma script_displayed (n : nat) (place : str) (max_rows : Z) (run : bool) :
  displayed (events (script place max_rows run e n))
  = match run, truthy (strip place), outcome (q_to_tb place [] e n) with
    | true, true, Ok (df, _, _) => head max_rows df
    | _, _, _ => []
    end.
Proof.
  pose proof (q_to_tb_displayed n place []) as Hq.
  unfold script. unfold_M.
  destruct run; [|reflexivity].
  destruct (truthy (strip place)); [|reflexivity].
  cbn [negb].
  destruct (q_to_tb place [] e n) as [[[[[df url] q]|x] n1] ev1].
  - unfold events, outcome in *. cbn [fst snd] in *.
    case_bool_decide as Hdf.
    + subst df. cbn. rewrite displayed_app, Hq.
      unfold head. by rewrite slice_to_nil.
    + destruct (for_each_cards (head max_rows df) n1) as (evs & -> & Hd).
      cbn. rewrite displayed_app, Hq. cbn [displayed app].
      rewrite displayed_app, Hd. cbn. by rewrite app_nil_r.
  - unfold events, outcome in *. cbn [fst snd] in *. cbn. exact Hq.
Qed.

End Page.

(* ===================================================================== *)
(** ** Properties of the page                                             *)
(* ===================================================================== *)

(** C9: when the place is empty or made of white space only, the page
    shows the warning and stops: the run emits the title, the caption
    and the warning and nothing else, so no feed is fetched, and the
    clock, which every call of [q_to_tb] reads first, is not read. *)
Theorem blank_place_warns (e : env) (n : nat) (place : str) (max_rows : Z) :
  Forall (fun c => isspace c = true) place ->
  script place max_rows true e n
  = (Raise StopException, n,
     [StTitle (lit "📰 場所ニュース");
      StCaption (lit "駅名/地名 → そこに関連したイベント関連ニュースを表示");
      StWarning (lit "駅名・地名を入力してください。")])
  /\ (forall url, Fetch url ∉ events (script place max_rows true e n))
  /\ reads (script place max_rows true e n) = n.
Proof.
  intros H.
  assert (E : script place max_rows true e n
              = (Raise StopException, n,
                 [StTitle (lit "📰 場所ニュース");
                  StCaption (lit "駅名/地名 → そこに関連したイベント関連ニュースを表示");
                  StWarning (lit "駅名・地名を入力してください。")])).
  { unfold script. rewrite (strip_all_space place H). reflexivity. }
  rewrite E. split; [done|]. split; [|done].
  intros url Hin. unfold events in Hin. cbn [snd] in Hin.
  repeat (apply elem_of_cons in Hin as [Hin|Hin]; [done|]).
  by apply elem_of_nil in Hin.
Qed.

Lemma blank_place_warns_witness :
  outcome (script (lit " 　") 20 true (Sample.noon_env 3) 0)
  = Raise StopException
  /\ reads (script (lit " 　") 20 true (Sample.noon_env 3) 0) = 0%nat.
Proof.
  assert (H : Forall (fun c => isspace c = true) (lit " 　"))
    by (repeat constructor).
  destruct (blank_place_warns (Sample.noon_env 3) 0 (lit " 　") 20 H)
    as (-> & _ & _).
  split; reflexivity.
Defined.

(** C1 (the code departs from it): the slider offers row limits up to
    50 and the page truncates the table to the chosen limit, but
    [q_to_tb] has already cut the table to 20 rows: with 30 entries of
    distinct links and a row limit of 25, the page shows 20 rows, not
    the 25 the property states. *)
Lemma displayed_rows_capped_counterexample :
  (10 <= 25 <= 50)%Z
  /\ (25 <= size (distinct_links (take 50 (Sample.feed_of 30))))%nat
  /\ length (displayed
               (events (script (lit "渋谷駅") 25 true (Sample.noon_env 30) 0)))
     = 20%nat
  /\ 20%nat <> Z.to_nat 25.
Proof.
  split; [lia|]. split; [vm_compute; lia|].
  split; [vm_compute; reflexivity | vm_compute; lia].
Qed.

(** What the page displays as the code stands: the first [rowLimit] of
    the first 20 rows that deduplication leaves of the first 50 entries.
    For a row limit in 10..50 their number is the least of the row
    limit, 20 and the number of distinct non-empty links among the first
    50 entries; when the row limit is at most 20 and there are at least
    that many distinct links, exactly [rowLimit] rows are displayed. *)
Theorem displayed_row_count (e : env) (n : nat) (place quoted : str)
        (entries : list entry) (max_rows : Z) :
  clock_ok (clock e n) -> clock_ok (clock e (S n)) ->
  truthy (strip place) = true ->
  quote_plus (build_query place) = Ok quoted ->
  feed e (the_request_url e n quoted) = Ok entries ->
  (10 <= max_rows <= 50)%Z ->
  let shown := displayed (events (script place max_rows true e n)) in
  let unique := size (distinct_links (take 50 entries)) in
  shown = take (Z.to_nat max_rows) (take 20 (normalise (localtz e) entries 50))
  /\ length shown = Nat.min (Z.to_nat max_rows) (Nat.min 20 unique)
  /\ ((max_rows <= 20)%Z -> (Z.to_nat max_rows <= unique)%nat ->
      length shown = Z.to_nat max_rows).
Proof.
  intros H1 H2 Hp Hq Hf Hr shown unique.
  assert (E : shown = take (Z.to_nat max_rows)
                        (take 20 (normalise (localtz e) entries 50))).
  { unfold shown. rewrite script_displayed, Hp.
    rewrite (q_to_tb_run e n place [] quoted H1 H2 Hq).
    rewrite app_nil_r, Hf.
    unfold outcome, rbind, head, iloc_to. cbn [fst].
    by rewrite !slice_to_nonneg by lia. }
  assert (L : length shown = Nat.min (Z.to_nat max_rows) (Nat.min 20 unique)).
  { rewrite E, !length_take, normalise_length.
    rewrite slice_to_nonneg by lia. reflexivity. }
  split; [done|]. split; [done|].
  intros Hle Hu. rewrite L. lia.
Qed.

Lemma displayed_row_count_witness :
  length (displayed
            (events (script (lit "渋谷駅") 10 true (Sample.noon_env 15) 0)))
  = Z.to_nat 10
  /\ size (distinct_links (take 50 (Sample.feed_of 15))) = 15%nat.
Proof.
  split; [|vm_compute; reflexivity].
  eapply (displayed_row_count (Sample.noon_env 15) 0 (lit "渋谷駅") _
            (Sample.feed_of 15) 10).
  - unfold clock_ok. vm_compute. split; reflexivity.
  - unfold clock_ok. vm_compute. split; reflexivity.
  - reflexivity.
  - vm_compute. reflexivity.
  - reflexivity.
  - lia.
  - lia.
  - vm_compute. lia.
Defined.

(** C10: the table that [q_to_tb] returns is the first 20 rows of the
    deduplicated table, so it has at most 20 rows, and the page never
    shows more than 20 rows, whatever the row limit is. *)
Theorem table_cap_20 (e : env) (n : nat) (place add : str) (max_rows : Z)
        (run : bool) :
  (forall df url q,
      outcome (q_to_tb place add e n) = Ok (df, url, q) ->
      (length df <= 20)%nat
      /\ exists entries,
           feed e url = Ok entries
           /\ df = take 20 (normalise (localtz e) entries 50))
  /\ (length (displayed (events (script place max_rows run e n))) <= 20)%nat.
Proof.
  assert (Hcap : forall add' df url q,
             outcome (q_to_tb place add' e n) = Ok (df, url, q) ->
             (length df <= 20)%nat
             /\ exists entries,
                  feed e url = Ok entries
                  /\ df = take 20 (normalise (localtz e) entries 50)).
  { intros add' df url q H.
    apply q_to_tb_inv in H as (entries & Hf & -> & _).
    unfold iloc_to. rewrite slice_to_nonneg by lia.
    change (Z.to_nat 20) with 20%nat.
    split; [rewrite length_take; lia | by exists entries]. }
  split; [apply Hcap|].
  rewrite script_displayed.
  destruct run; [|simpl; lia].
  destruct (truthy (strip place)); [|simpl; lia].
  destruct (outcome (q_to_tb place [] e n)) as [[[df url] q]|x] eqn:E;
    [|simpl; lia].
  destruct (Hcap [] df url q E) as [Hlen _].
  pose proof (slice_to_length max_rows df). unfold head. lia.
Qed.

(** The cap is reached: 30 distinct links give a table of 20 rows. *)
Example q_to_tb_twenty_rows :
  match outcome (q_to_tb (lit "渋谷駅") [] (Sample.noon_env 30) 0) with
  | Ok (df, _, _) => length df = 20%nat
  | Raise _ => False
  end.
Proof. vm_compute. reflexivity. Qed.

(* ===================================================================== *)
(** ** Properties of the query builder                                    *)
(* ===================================================================== *)

(** C3: the URL that [q_to_tb] requests is the fixed address followed by
    [after:] and the first date, [+before:] and the second date, [+]
    and the boolean expression percent-encoded byte by byte from its
    UTF-8 form, and the fixed locale parameters; both dates have the
    shape [YYYY-MM-DD].  The same URL is returned with the table. *)
Theorem request_url_exact (e : env) (n : nat) (place : str) :
  clock_ok (clock e n) -> clock_ok (clock e (S n)) -> encodable place ->
  exists bytes,
    utf8_encode (build_query place) = Ok bytes
    /\ let dateFrom := isoformat (Date (jst_day (clock e n) - 1)) in
       let dateTo := isoformat (Date (jst_day (clock e (S n)) + 1)) in
       let url :=
         lit "https://news.google.com/rss/search?q=after:" ++ dateFrom
           ++ lit "+before:" ++ dateTo ++ lit "+"
           ++ concat (List.map quote_byte bytes)
           ++ lit "&hl=ja&gl=JP&ceid=JP:ja" in
       events (q_to_tb place [] e n) = [Fetch url]
       /\ outcome (q_to_tb place [] e n)
          = rbind (feed e url)
              (fun entries =>
                 Ok (iloc_to 20 (normalise (localtz e) entries 50), url,
                     build_query place))
       /\ is_iso_date dateFrom = true
       /\ is_iso_date dateTo = true.
Proof.
  intros H1 H2 Hp.
  destruct (utf8_encode_encodable _ (build_query_encodable place Hp))
    as [bytes Hb].
  exists bytes. split; [done|]. intros dateFrom dateTo url.
  assert (Hq : quote_plus (build_query place)
               = Ok (concat (List.map quote_byte bytes)))
    by (unfold quote_plus; by rewrite Hb).
  rewrite (q_to_tb_run e n place [] _ H1 H2 Hq), app_nil_r.
  repeat split; apply isoformat_is_iso_date.
Qed.

Lemma request_url_exact_witness :
  events (q_to_tb (lit "渋谷駅") [] (Sample.noon_env 3) 0)
  = [Fetch (lit "https://news.google.com/rss/search?q=after:2024-06-14+before:2024-06-16+%28%E6%B8%8B%E8%B0%B7%E9%A7%85%29+AND+%28%E3%82%A4%E3%83%99%E3%83%B3%E3%83%88+OR+%E9%96%8B%E5%82%AC+OR+%E3%82%AA%E3%83%BC%E3%83%97%E3%83%B3+OR+%E7%A5%AD%E3%82%8A+OR+%E4%BD%93%E9%A8%93%E4%BC%9A+OR+%E3%83%95%E3%82%A7%E3%82%B9+OR+%E5%B1%95%E7%A4%BA%E4%BC%9A+OR+%E5%B1%95%29&hl=ja&gl=JP&ceid=JP:ja")].
Proof.
  assert (H1 : clock_ok (clock (Sample.noon_env 3) 0))
    by (unfold clock_ok; vm_compute; split; reflexivity).
  assert (H2 : clock_ok (clock (Sample.noon_env 3) 1))
    by (unfold clock_ok; vm_compute; split; reflexivity).
  assert (H3 : encodable (lit "渋谷駅"))
    by (apply encodable_forallb; vm_compute; reflexivity).
  destruct (request_url_exact (Sample.noon_env 3) 0 (lit "渋谷駅") H1 H2 H3)
    as (bytes & Hb & Hev & _).
  rewrite Hev. vm_compute in Hb. injection Hb as <-.
  vm_compute. reflexivity.
Defined.

(** When the two clock readings of a request fall on the same calendar
    day [D] of the target zone, the first date is the day before [D] and
    the second the day after [D]; each call of [xdaysago] takes a fresh
    reading of the clock (the count of readings advances), so nothing
    is kept from an earlier request. *)
Theorem date_window (e : env) (n : nat) (place : str) (D : Z) :
  jst_day (clock e n) = D -> jst_day (clock e (S n)) = D ->
  (MINDAY < D < MAXDAY)%Z -> encodable place ->
  xdaysago 1 e n = (Ok (isoformat (Date (D - 1))), S n, [])
  /\ xdaysago (-1) e (S n) = (Ok (isoformat (Date (D + 1))), S (S n), [])
  /\ exists quoted,
       events (q_to_tb place [] e n)
       = [Fetch (spec_request_url (isoformat (Date (D - 1)))
                   (isoformat (Date (D + 1))) quoted)]
       /\ reads (q_to_tb place [] e n) = S (S n).
Proof.
  intros Ha Hb HD Hp.
  assert (H1 : clock_ok (clock e n)) by (unfold clock_ok; by rewrite Ha).
  assert (H2 : clock_ok (clock e (S n))) by (unfold clock_ok; by rewrite Hb).
  split; [|split].
  - rewrite (xdaysago_clock_ok e n 1 H1) by lia. by rewrite Ha.
  - rewrite (xdaysago_clock_ok e (S n) (-1) H2) by lia. rewrite Hb.
    by replace (D - -1)%Z with (D + 1)%Z by lia.
  - destruct (quote_plus_encodable _ (build_query_encodable place Hp))
      as [quoted Hq].
    exists quoted.
    rewrite (q_to_tb_run e n place [] quoted H1 H2 Hq), app_nil_r.
    unfold the_request_url. rewrite Ha, Hb. done.
Qed.

Lemma date_window_witness :
  xdaysago 1 Sample.day_env 0 = (Ok (lit "2024-06-14"), 1%nat, [])
  /\ xdaysago (-1) Sample.day_env 1 = (Ok (lit "2024-06-16"), 2%nat, []).
Proof.
  assert (Ha : jst_day (clock Sample.day_env 0) = 19889%Z) by reflexivity.
  assert (Hb : jst_day (clock Sample.day_env 1) = 19889%Z) by reflexivity.
  assert (HD : (MINDAY < 19889 < MAXDAY)%Z) by (unfold MINDAY, MAXDAY; lia).
  assert (Hp : encodable (lit "渋谷駅"))
    by (apply encodable_forallb; vm_compute; reflexivity).
  destruct (date_window Sample.day_env 0 (lit "渋谷駅") 19889 Ha Hb HD Hp)
    as (E1 & E2 & _).
  rewrite E1, E2. split; reflexivity.
Defined.


(* ===================================================================== *)
(** ** Further properties of the feed normaliser                          *)
(* ===================================================================== *)

Section NormaliserMore.
Variable (ltz : Z).

Lemma union_seen (l : str) (D seen : gset str) :
  l ∈ seen -> ({[l]} ∪ D) ∪ seen = D ∪ seen.
Proof. set_solver. Qed.

Lemma union_fresh (l : str) (D seen : gset str) :
  ({[l]} ∪ D) ∪ seen = D ∪ ({[l]} ∪ seen).
Proof. set_solver. Qed.

Lemma distinct_links_nil : distinct_links [] = ∅.
Proof. reflexivity. Qed.

(** The loop over a feed in two parts: the second part starts with the
    links of the first in [seen]. *)
Lemma spec_keep_app (a b : list entry) (seen : gset str) :
  spec_keep seen (a ++ b)
  = spec_keep seen a ++ spec_keep (distinct_links a ∪ seen) b.
Proof.
  revert seen. induction a as [|x a IH]; intros seen.
  - simpl. by rewrite distinct_links_nil, union_empty_l_L.
  - simpl. rewrite distinct_links_cons.
    case_bool_decide as H1; [apply IH|].
    case_bool_decide as H2.
    + by rewrite IH, union_seen.
    + simpl. by rewrite IH, union_fresh.
Qed.

(** The set [seen] after the loop. *)
Lemma loop_seen (es : list entry) (rows : list row) (seen : gset str) :
  (fold_left (loop_body ltz) es (rows, seen)).2 = distinct_links es ∪ seen.
Proof.
  revert rows seen. induction es as [|x es IH]; intros rows seen.
  - simpl. by rewrite distinct_links_nil, union_empty_l_L.
  - simpl. fold (link_of x). rewrite truthy_nil, distinct_links_cons.
    case_bool_decide as H1; simpl; [apply IH|].
    case_bool_decide as H2; simpl.
    + by rewrite IH, union_seen.
    + by rewrite IH, union_fresh.
Qed.

Lemma diff_seen_cons (l : str) (D seen : gset str) :
  l ∉ seen -> ({[l]} ∪ D) ∖ seen = {[l]} ∪ D ∖ ({[l]} ∪ seen).
Proof.
  intros Hl. apply set_eq. intros x. destruct (decide (x = l)); set_solver.
Qed.

(** The links of the kept entries, as a set. *)
Lemma spec_keep_links_set (es : list entry) (seen : gset str) :
  list_to_set (List.map link_of (spec_keep seen es))
  = distinct_links es ∖ seen.
Proof.
  revert seen. induction es as [|x es IH]; intros seen.
  - simpl. rewrite distinct_links_nil. by rewrite difference_disjoint_L.
  - simpl. rewrite distinct_links_cons.
    case_bool_decide as H1; [apply IH|].
    case_bool_decide as H2.
    + by rewrite IH, difference_seen.
    + simpl. by rewrite IH, diff_seen_cons.
Qed.

Lemma union_difference_same (D seen : gset str) :
  seen ∪ D ∖ seen = D ∪ seen.
Proof.
  apply set_eq. intros x. destruct (decide (x ∈ seen)); set_solver.
Qed.

(** Entries whose links are all empty or seen add no row. *)
Lemma spec_keep_all_seen (es : list entry) (seen : gset str) :
  distinct_links es ⊆ seen -> spec_keep seen es = [].
Proof.
  intros H.
  pose proof (spec_keep_length es seen) as L.
  replace (distinct_links es ∖ seen) with (∅ : gset str) in L
    by (generalize dependent (distinct_links es); set_solver).
  rewrite size_empty in L. by apply nil_length_inv.
Qed.

(** Entries with pairwise distinct, non-empty, unseen links are all kept. *)
Lemma spec_keep_all_fresh (es : list entry) (seen : gset str) :
  NoDup (List.map link_of es) ->
  (forall x, x ∈ es -> link_of x <> [] /\ link_of x ∉ seen) ->
  spec_keep seen es = es.
Proof.
  revert seen. induction es as [|x es IH]; intros seen Hnd Hf; [done|].
  simpl in Hnd. apply NoDup_cons in Hnd as [Hx Hnd].
  destruct (Hf x) as [Hx1 Hx2]; [apply list_elem_of_here|].
  simpl. rewrite !bool_decide_eq_false_2 by done.
  f_equal. apply IH; [done|].
  intros y Hy. destruct (Hf y) as [Hy1 Hy2]; [by apply list_elem_of_further|].
  split; [done|].
  assert (link_of y <> link_of x).
  { intros E. apply Hx. rewrite <- E.
    apply list_elem_of_In, in_map, list_elem_of_In, Hy. }
  set_solver.
Qed.

End NormaliserMore.

(** X1: the loop keeps [seen] equal to the set of the links of the rows
    built so far, and only ever appends to [rows]. *)
Theorem loop_invariant (ltz : Z) (es : list entry) (rows : list row)
        (seen : gset str) :
  seen = list_to_set (List.map r_link rows) ->
  let st := fold_left (loop_body ltz) es (rows, seen) in
  st.2 = list_to_set (List.map r_link st.1) /\ rows `prefix_of` st.1.
Proof.
  intros Hs st. unfold st.
  rewrite loop_seen, loop_spec_keep. split.
  - rewrite map_app, list_to_set_app_L, map_map.
    change (fun x => r_link (row_of ltz x)) with link_of.
    rewrite spec_keep_links_set, <- Hs.
    by rewrite union_difference_same.
  - by apply prefix_app_r.
Qed.

Lemma loop_invariant_witness :
  (fold_left (loop_body 0) [Sample.bare_entry; Sample.far_entry;
                            Sample.bare_entry] ([], ∅)).2
  = list_to_set
      (List.map r_link
         (fold_left (loop_body 0) [Sample.bare_entry; Sample.far_entry;
                                   Sample.bare_entry] ([], ∅)).1).
Proof.
  apply (loop_invariant 0 [Sample.bare_entry; Sample.far_entry;
                           Sample.bare_entry] [] ∅).
  reflexivity.
Defined.

(** X2: entries beyond the limit are never looked at: a feed that is
    extended after its first [limit] entries gives the same table. *)
Theorem normalise_ignores_beyond_limit (ltz : Z) (es more : list entry)
        (limit : Z) :
  (0 <= limit)%Z -> (Z.to_nat limit <= length es)%nat ->
  normalise ltz (es ++ more) limit = normalise ltz es limit.
Proof.
  intros H0 Hl. unfold normalise.
  rewrite !slice_to_nonneg by done.
  by rewrite take_app_le.
Qed.

Lemma normalise_ignores_beyond_limit_witness :
  normalise 0 (Sample.feed_of 50 ++ Sample.feed_of 7) 50
  = normalise 0 (Sample.feed_of 50) 50.
Proof.
  apply (normalise_ignores_beyond_limit 0 (Sample.feed_of 50)
           (Sample.feed_of 7) 50).
  - lia.
  - vm_compute. lia.
Defined.

(** X3: later entries never change or remove earlier rows: the table of
    a feed is a prefix of the table of the feed extended at its end. *)
Theorem normalise_prefix (ltz : Z) (es more : list entry) (limit : Z) :
  (0 <= limit)%Z ->
  normalise ltz es limit `prefix_of` normalise ltz (es ++ more) limit.
Proof.
  intros H0. rewrite !normalise_spec_keep.
  rewrite !slice_to_nonneg by done.
  rewrite take_app, spec_keep_app, map_app.
  by apply prefix_app_r.
Qed.

Lemma normalise_prefix_witness :
  normalise 0 (Sample.feed_of 3) 50
  `prefix_of` normalise 0 (Sample.feed_of 3 ++ [Sample.far_entry]) 50.
Proof.
  apply (normalise_prefix 0 (Sample.feed_of 3) [Sample.far_entry] 50). lia.
Defined.

(** X4: nothing is dropped without cause: when the considered entries
    have pairwise distinct, non-empty links, the table has one row per
    entry, in feed order. *)
Theorem normalise_keeps_all (ltz : Z) (entries : list entry) (limit : Z) :
  NoDup (List.map link_of (slice_to limit entries)) ->
  (forall x, x ∈ slice_to limit entries -> link_of x <> []) ->
  normalise ltz entries limit
  = List.map (row_of ltz) (slice_to limit entries)
  /\ length (normalise ltz entries limit) = length (slice_to limit entries).
Proof.
  intros Hnd Hne.
  assert (E : normalise ltz entries limit
              = List.map (row_of ltz) (slice_to limit entries)).
  { rewrite normalise_spec_keep, spec_keep_all_fresh; [done|done|].
    intros x Hx. split; [by apply Hne | set_solver]. }
  split; [done|]. by rewrite E, length_map.
Qed.

Lemma normalise_keeps_all_witness :
  length (normalise 0 (Sample.feed_of 5) 50) = 5%nat.
Proof.
  destruct (normalise_keeps_all 0 (Sample.feed_of 5) 50) as [_ ->].
  - apply (bool_decide_unpack _). vm_compute. exact I.
  - apply Forall_forall. apply (bool_decide_unpack _). vm_compute. exact I.
  - reflexivity.
Defined.

(** X5: repeated entries add nothing: when every link of the entries
    appended to a feed is empty or already occurs in the feed, the
    table is that of the feed alone. *)
Theorem normalise_repeats_add_nothing (ltz : Z) (es dup : list entry)
        (limit : Z) :
  (0 <= limit)%Z ->
  (length es <= Z.to_nat limit)%nat ->
  (forall x, x ∈ dup ->
             link_of x = [] \/ exists y, y ∈ es /\ link_of y = link_of x) ->
  normalise ltz (es ++ dup) limit = normalise ltz es limit.
Proof.
  intros H0 Hl Hdup. rewrite !normalise_spec_keep.
  rewrite !slice_to_nonneg by done.
  rewrite take_app, (take_ge es) by done.
  rewrite spec_keep_app, (spec_keep_all_seen (take _ dup));
    [by rewrite app_nil_r|].
  intros l Hin. unfold distinct_links in Hin.
  apply elem_of_list_to_set, list_elem_of_filter in Hin as [Hne Hin].
  apply list_elem_of_In, in_map_iff in Hin as (x & <- & Hx).
  apply list_elem_of_In, subseteq_take in Hx.
  destruct (Hdup x Hx) as [E|(y & Hy & E)]; [done|].
  apply elem_of_union_l. unfold distinct_links.
  apply elem_of_list_to_set, list_elem_of_filter. split; [done|].
  rewrite <- E. apply list_elem_of_In, in_map, list_elem_of_In, Hy.
Qed.

Lemma normalise_repeats_add_nothing_witness :
  normalise 0 (Sample.feed_of 3 ++ Sample.feed_of 3) 50
  = normalise 0 (Sample.feed_of 3) 50.
Proof.
  apply (normalise_repeats_add_nothing 0 (Sample.feed_of 3)
           (Sample.feed_of 3) 50).
  - lia.
  - vm_compute. lia.
  - intros x Hx. right. by exists x.
Defined.


(* ===================================================================== *)
(** ** Further properties of the time helpers                             *)
(* ===================================================================== *)

(** X6: a reading of the system clock is a count of nanoseconds held
    in 64 bits, so it lies within 9223372036 seconds of the epoch.  For
    such a reading [xdaysago x] reads the clock once and emits nothing;
    it returns the ISO date of the day [x] days before today in the
    target zone (after today for a negative [x]) when that day is a
    date of the years 1..9999, and raises [OverflowError] otherwise. *)
Theorem xdaysago_cases (e : env) (n : nat) (x : Z) :
  (-9223372036 <= clock e n <= 9223372036)%Z ->
  let D := jst_day (clock e n) in
  reads (xdaysago x e n) = S n
  /\ events (xdaysago x e n) = []
  /\ outcome (xdaysago x e n)
     = if day_in_range (D - x) then Ok (isoformat (Date (D - x)))
       else Raise OverflowError.
Proof.
  intros Hc D.
  assert (H0 : day_in_range (clock e n / 86400) = true).
  { apply day_in_range_spec. unfold MINDAY, MAXDAY.
    Z.div_mod_to_equations. lia. }
  assert (H1 : day_in_range D = true).
  { apply day_in_range_spec. unfold D, jst_day, JST, MINDAY, MAXDAY.
    Z.div_mod_to_equations. lia. }
  unfold xdaysago, datetime_now. unfold_M.
  unfold fromtimestamp. rewrite (utc_fields_check_ok _ H0). cbn.
  fold (jst_day (clock e n)). fold D. rewrite H1.
  unfold date_sub_days, to_date. cbn [dt_wall date_days].
  fold (jst_day (clock e n)). fold D.
  by destruct (day_in_range (D - x)).
Qed.

Lemma xdaysago_cases_witness :
  outcome (xdaysago 30 (Sample.noon_env 3) 0) = Ok (lit "2024-05-16")
  /\ outcome (xdaysago 1000000 (Sample.noon_env 3) 0) = Raise OverflowError.
Proof.
  split.
  - destruct (xdaysago_cases (Sample.noon_env 3) 0 30) as (_ & _ & ->).
    + cbn. lia.
    + reflexivity.
  - destruct (xdaysago_cases (Sample.noon_env 3) 0 1000000) as (_ & _ & ->).
    + cbn. lia.
    + reflexivity.
Defined.



Lemma strftime_is_stamp (dt : datetime) :
  (1000 <= dt_year dt)%Z -> is_stamp (strftime_ymd_hm dt) = true.
Proof.
  unfold strftime_ymd_hm, dt_year.
  destruct (civil_from_days (dt_wall dt / 86400)) as [[y m] dd].
  cbn [fst]. intros Hy. unfold year_str.
  rewrite !(proj2 (Z.ltb_ge _ _)) by lia.
  unfold pad4, pad2.
  change (lit "-") with [45%N]. change (lit " ") with [32%N].
  change (lit ":") with [58%N]. cbn [app].
  unfold is_stamp, forallb. rewrite !is_digit_digit. reflexivity.
Qed.

Lemma strftime_truthy (dt : datetime) : truthy (strftime_ymd_hm dt) = true.
Proof.
  unfold strftime_ymd_hm.
  destruct (civil_from_days (dt_wall dt / 86400)) as [[y m] dd].
  unfold year_str, pad4.
  by repeat (destruct (_ <? _)%Z).
Qed.

(** X8: the timestamp cell of a row is empty exactly when the conversion
    gave nothing; otherwise it is the non-empty text of the time, so the
    page's test of the cell tells whether a time is known, and from the
    year 1000 on the text has the shape [YYYY-MM-DD HH:MM] (the year of
    an earlier time is printed with fewer digits). *)
Theorem published_cell_shape (ltz : Z) (e : entry) :
  match _published_to_jst ltz e with
  | None => r_published_jst (row_of ltz e) = []
  | Some dt =>
      r_published_jst (row_of ltz e) = strftime_ymd_hm dt
      /\ truthy (r_published_jst (row_of ltz e)) = true
      /\ ((1000 <= dt_year dt)%Z ->
          is_stamp (r_published_jst (row_of ltz e)) = true)
  end.
Proof.
  unfold row_of, make_row. cbn [r_published_jst].
  destruct (_published_to_jst ltz e) as [dt|]; [|done].
  split; [done|]. split; [apply strftime_truthy|apply strftime_is_stamp].
Qed.


(* ===================================================================== *)
(** ** Further properties of the query builder                            *)
(* ===================================================================== *)

Section StripFacts.

Lemma lstrip_split (s : str) :
  exists pre,
    s = pre ++ lstrip s
    /\ Forall (fun c => isspace c = true) pre
    /\ match lstrip s with
       | [] => True
       | c :: _ => isspace c = false
       end.
Proof.
  induction s as [|c r (pre & E & Hpre & Hhd)]; simpl.
  - by exists [].
  - destruct (isspace c) eqn:Hc.
    + exists (c :: pre). split; [simpl; by f_equal|].
      split; [by constructor|done].
    + exists []. by rewrite Hc.
Qed.

Lemma rstrip_split (s : str) :
  exists post,
    s = rstrip s ++ post
    /\ Forall (fun c => isspace c = true) post
    /\ match rev (rstrip s) with
       | [] => True
       | c :: _ => isspace c = false
       end.
Proof.
  destruct (lstrip_split (rev s)) as (pre & E & Hpre & Hhd).
  exists (rev pre). unfold rstrip. rewrite rev_involutive.
  repeat split; [|by apply Forall_rev|done].
  rewrite <- rev_app_distr, <- E. by rewrite rev_involutive.
Qed.

Lemma lstrip_app_space (pre s : str) :
  Forall (fun c => isspace c = true) pre -> lstrip (pre ++ s) = lstrip s.
Proof.
  induction 1 as [|c r Hc _ IH]; simpl; [done|]. by rewrite Hc.
Qed.

Lemma strip_is_trimmed (s : str) : trimmed (strip s) = true.
Proof.
  unfold strip.
  destruct (lstrip_split s) as (pre & _ & _ & Hhd).
  destruct (rstrip_split (lstrip s)) as (post & E & _ & Hlast).
  unfold trimmed.
  destruct (rstrip (lstrip s)) as [|c g] eqn:Eg; [done|].
  rewrite E in Hhd. simpl in Hhd.
  destruct (rev (c :: g)) as [|d q]; [done|].
  by rewrite Hhd, Hlast.
Qed.

Lemma strip_padding (pre g post : str) :
  Forall (fun c => isspace c = true) pre ->
  Forall (fun c => isspace c = true) post ->
  trimmed g = true ->
  strip (pre ++ g ++ post) = g.
Proof.
  intros Hpre Hpost Hg. unfold strip.
  rewrite lstrip_app_space by done.
  destruct g as [|c r].
  - simpl. by rewrite (lstrip_all_space post Hpost).
  - unfold trimmed in Hg.
    destruct (rev (c :: r)) as [|d q] eqn:Er.
    { apply (f_equal length) in Er. by rewrite length_rev in Er. }
    apply andb_prop in Hg as [Hc Hd]. apply negb_true_iff in Hc, Hd.
    cbn [app lstrip]. rewrite Hc. unfold rstrip.
    change (c :: r ++ post) with ((c :: r) ++ post).
    rewrite rev_app_distr, lstrip_app_space by (by apply Forall_rev).
    rewrite Er. cbn [lstrip]. rewrite Hd, <- Er. apply rev_involutive.
Qed.

End StripFacts.

(** C2 (amended): for every place string [p], [build_query p] is
    [(g) AND (disjunction)], where [g] is [p] without the white space at
    its two ends ([p] is white space, then [g], then white space, and
    [g] has none at either end) and the disjunction is the eight fixed
    keywords joined by [" OR "]; [p] itself is the first group exactly
    when it has no white space at its ends. *)
Theorem build_query_shape (p : str) :
  exists pre g post,
    p = pre ++ g ++ post
    /\ Forall (fun c => isspace c = true) pre
    /\ Forall (fun c => isspace c = true) post
    /\ trimmed g = true
    /\ build_query p
       = lit "(" ++ g ++ lit ") AND ("
           ++ join (lit " OR ") event_keywords ++ lit ")"
    /\ length event_keywords = 8%nat
    /\ (g = p <-> trimmed p = true).
Proof.
  destruct (lstrip_split p) as (pre & E1 & Hpre & _).
  destruct (rstrip_split (lstrip p)) as (post & E2 & Hpost & _).
  exists pre, (strip p), post.
  split; [unfold strip; by rewrite <- E2|].
  split; [done|]. split; [done|].
  split; [apply strip_is_trimmed|].
  split; [|split; [reflexivity|]].
  - rewrite build_query_strip.
    by destruct EVENT_TERMS_disjunction as [-> _].
  - split.
    + intros <-. apply strip_is_trimmed.
    + apply strip_trimmed.
Qed.

Lemma build_query_shape_witness :
  build_query (lit "渋谷駅")
  = lit "(渋谷駅) AND (イベント OR 開催 OR オープン OR 祭り OR 体験会 OR フェス OR 展示会 OR 展)".
Proof.
  destruct (build_query_shape (lit "渋谷駅"))
    as (pre & g & post & _ & _ & _ & _ & -> & _ & Hg).
  rewrite (proj2 Hg eq_refl). reflexivity.
Defined.

(** X9: the first group of the query is the place without the white
    space at its two ends, and nothing else is removed: the place is
    white space, then the group, then white space, and the group has no
    white space at either end. *)
Theorem build_query_group (p : str) :
  exists pre g post,
    p = pre ++ g ++ post
    /\ Forall (fun c => isspace c = true) pre
    /\ Forall (fun c => isspace c = true) post
    /\ trimmed g = true
    /\ build_query p
       = lit "(" ++ g ++ lit ") AND (" ++ EVENT_TERMS ++ lit ")".
Proof.
  destruct (lstrip_split p) as (pre & E1 & Hpre & _).
  destruct (rstrip_split (lstrip p)) as (post & E2 & Hpost & _).
  exists pre, (strip p), post. repeat split; try done.
  - unfold strip. by rewrite <- E2.
  - apply strip_is_trimmed.
Qed.

(** X10: white space around the place does not change the query. *)
Theorem build_query_ignores_padding (pre g post : str) :
  Forall (fun c => isspace c = true) pre ->
  Forall (fun c => isspace c = true) post ->
  trimmed g = true ->
  build_query (pre ++ g ++ post) = build_query g.
Proof.
  intros Hpre Hpost Hg.
  rewrite !build_query_strip.
  by rewrite (strip_padding pre g post Hpre Hpost Hg), (strip_trimmed g Hg).
Qed.

Lemma build_query_ignores_padding_witness :
  build_query (lit " 　" ++ lit "渋谷駅" ++ lit "  ")
  = build_query (lit "渋谷駅").
Proof.
  apply (build_query_ignores_padding (lit " 　") (lit "渋谷駅") (lit "  ")).
  - apply (bool_decide_unpack _). vm_compute. exact I.
  - apply (bool_decide_unpack _). vm_compute. exact I.
  - reflexivity.
Defined.

Section QuoteFacts.
Local Open Scope N_scope.

Lemma utf8_encode_char_bytes (c : N) (bs : list N) :
  utf8_encode_char c = Ok bs -> Forall (fun b => b < 256) bs.
Proof.
  unfold utf8_encode_char.
  destruct (N.ltb_spec c 0x80).
  { intros [= <-]. repeat constructor. lia. }
  destruct (N.ltb_spec c 0x800).
  { intros [= <-].
    pose proof (N.mod_lt c 64 ltac:(lia)).
    assert (c / 64 < 32) by (apply N.Div0.div_lt_upper_bound; lia).
    repeat constructor; lia. }
  destruct (N.ltb_spec c 0x10000).
  { destruct (_ && _); [done|]. intros [= <-].
    pose proof (N.mod_lt c 64 ltac:(lia)).
    pose proof (N.mod_lt (c / 64) 64 ltac:(lia)).
    assert (c / 4096 < 16) by (apply N.Div0.div_lt_upper_bound; lia).
    repeat constructor; lia. }
  destruct (N.ltb_spec c 0x110000); [|done].
  intros [= <-].
  pose proof (N.mod_lt c 64 ltac:(lia)).
  pose proof (N.mod_lt (c / 64) 64 ltac:(lia)).
  pose proof (N.mod_lt (c / 4096) 64 ltac:(lia)).
  assert (c / 262144 < 16) by (apply N.Div0.div_lt_upper_bound; lia).
  repeat constructor; lia.
Qed.

Lemma utf8_encode_bytes (s : str) (bs : list N) :
  utf8_encode s = Ok bs -> Forall (fun b => b < 256) bs.
Proof.
  revert bs. induction s as [|c r IH]; intros bs; simpl.
  - intros [= <-]. constructor.
  - destruct (utf8_encode_char c) as [b|] eqn:Ec; [|done].
    destruct (utf8_encode r) as [rest|]; [|done].
    simpl. intros [= <-]. apply Forall_app. split.
    + by apply (utf8_encode_char_bytes c).
    + by apply IH.
Qed.

(** Checked on each of the 256 bytes. *)
Lemma quote_byte_safe (b : N) :
  b < 256 -> Forall (fun c => url_safe c = true) (quote_byte b).
Proof.
  intros Hb.
  assert (Hall : forallb (fun b => forallb url_safe (quote_byte b))
                   (List.map N.of_nat (seq 0 256)) = true)
    by (vm_compute; reflexivity).
  rewrite forallb_forall in Hall.
  apply Forall_forall. intros c Hc. apply list_elem_of_In in Hc.
  specialize (Hall b). rewrite forallb_forall in Hall.
  apply Hall; [|done].
  apply in_map_iff. exists (N.to_nat b). split; [lia|].
  apply in_seq. lia.
Qed.

Lemma quote_plus_safe (s quoted : str) :
  quote_plus s = Ok quoted -> Forall (fun c => url_safe c = true) quoted.
Proof.
  unfold quote_plus.
  destruct (utf8_encode s) as [bs|] eqn:E; [|done].
  simpl. intros [= <-]. apply utf8_encode_bytes in E.
  induction E as [|b bs Hb _ IH]; simpl; [constructor|].
  apply Forall_app. split; [by apply quote_byte_safe|done].
Qed.

End QuoteFacts.

(** X11: whatever the place, the encoded expression in the requested
    URL is made of ASCII letters, digits, [_ . - ~ + %] only; so it holds
    no [&], [=], [#] or space, and the place cannot add or change a
    parameter of the request. *)
Theorem request_query_is_safe (e : env) (n : nat) (place : str) :
  clock_ok (clock e n) -> clock_ok (clock e (S n)) -> encodable place ->
  exists quoted,
    events (q_to_tb place [] e n) = [Fetch (the_request_url e n quoted)]
    /\ Forall (fun c => url_safe c = true) quoted
    /\ (38%N ∉ quoted) /\ (61%N ∉ quoted) /\ (35%N ∉ quoted)
    /\ (32%N ∉ quoted).
Proof.
  intros H1 H2 Hp.
  destruct (quote_plus_encodable _ (build_query_encodable place Hp))
    as [quoted Hq].
  exists quoted.
  rewrite (q_to_tb_run e n place [] quoted H1 H2 Hq), app_nil_r.
  split; [done|].
  pose proof (quote_plus_safe _ _ Hq) as Hs.
  split; [done|].
  rewrite Forall_forall in Hs.
  repeat split; intros Hin; by apply Hs in Hin.
Qed.

Lemma request_query_is_safe_witness :
  exists quoted,
    events (q_to_tb (lit "a&hl=en #x") [] (Sample.noon_env 3) 0)
    = [Fetch (the_request_url (Sample.noon_env 3) 0 quoted)]
    /\ 38%N ∉ quoted.
Proof.
  destruct (request_query_is_safe (Sample.noon_env 3) 0 (lit "a&hl=en #x"))
    as (quoted & Hev & _ & Hamp & _).
  - unfold clock_ok. vm_compute. split; reflexivity.
  - unfold clock_ok. vm_compute. split; reflexivity.
  - apply encodable_forallb. vm_compute. reflexivity.
  - by exists quoted.
Defined.

(** X12: the optional suffix [add] is put, as it is, at the end of the
    URL that would be requested without it. *)
Theorem q_to_tb_add_suffix (e : env) (n : nat) (place add : str) :
  clock_ok (clock e n) -> clock_ok (clock e (S n)) -> encodable place ->
  exists url,
    events (q_to_tb place [] e n) = [Fetch url]
    /\ events (q_to_tb place add e n) = [Fetch (url ++ add)]
    /\ reads (q_to_tb place add e n) = reads (q_to_tb place [] e n).
Proof.
  intros H1 H2 Hp.
  destruct (quote_plus_encodable _ (build_query_encodable place Hp))
    as [quoted Hq].
  exists (the_request_url e n quoted).
  rewrite (q_to_tb_run e n place [] quoted H1 H2 Hq), app_nil_r.
  by rewrite (q_to_tb_run e n place add quoted H1 H2 Hq).
Qed.

Lemma q_to_tb_add_suffix_witness :
  exists url,
    events (q_to_tb (lit "渋谷駅") [] (Sample.noon_env 3) 0) = [Fetch url]
    /\ events (q_to_tb (lit "渋谷駅") (lit "&num=5") (Sample.noon_env 3) 0)
       = [Fetch (url ++ lit "&num=5")].
Proof.
  destruct (q_to_tb_add_suffix (Sample.noon_env 3) 0 (lit "渋谷駅")
              (lit "&num=5")) as (url & E1 & E2 & _).
  - unfold clock_ok. vm_compute. split; reflexivity.
  - unfold clock_ok. vm_compute. split; reflexivity.
  - apply encodable_forallb. vm_compute. reflexivity.
  - by exists url.
Defined.


(* ===================================================================== *)
(** ** Further properties of the page                                     *)
(* ===================================================================== *)

Section PageMore.
Variable (e : env).

Lemma render_card_events (r : row) (n : nat) :
  render_card r e n = (Ok tt, n, card_events r).
Proof.
  unfold render_card, card_events. unfold_M.
  by destruct (truthy (r_published_jst r)).
Qed.

Lemma for_each_card_events (df : DataFrame) (n : nat) :
  for_each df render_card e n
  = (Ok tt, n, concat (List.map card_events df)).
Proof.
  induction df as [|r df IH]; [done|].
  cbn [for_each]. unfold mbind, M_mbind, M_bind.
  by rewrite render_card_events, IH.
Qed.

(** A run of the page, in every case. *)
Lemma script_run (n : nat) (place : str) (max_rows : Z) (run : bool) :
  script place max_rows run e n
  = if run then
      if truthy (strip place) then
        let r := q_to_tb place [] e n in
        ((page_after max_rows (outcome r)).1, reads r,
         page_heading ++ events r ++ (page_after max_rows (outcome r)).2)
      else (Raise StopException, n, page_heading ++ [StWarning msg_no_place])
    else (Ok tt, n, page_heading ++ [StInfo msg_idle]).
Proof.
  unfold script, page_heading, msg_idle, msg_no_place. unfold_M.
  destruct run; [|cbn; reflexivity].
  destruct (truthy (strip place)); [|cbn; reflexivity].
  cbn [negb]. cbv zeta.
  destruct (q_to_tb place [] e n) as [[[[[df url] q]|x] n1] ev1].
  - unfold events, outcome, reads, page_after, msg_not_found.
    cbn [fst snd].
    case_bool_decide as Hdf.
    + cbn. reflexivity.
    + rewrite for_each_card_events. cbn. reflexivity.
  - cbn. by rewrite app_nil_r.
Qed.

(** The events of [q_to_tb]: nothing, or the one fetch. *)
Lemma q_to_tb_fetches (n : nat) (place add : str) :
  (length (fetches (events (q_to_tb place add e n))) <= 1)%nat.
Proof.
  unfold q_to_tb. unfold mbind at 1. unfold M_mbind, M_bind.
  destruct (xdaysago_silent e 1 n) as ([y|x] & ->); [|cbn; lia].
  unfold mbind at 1. unfold M_mbind, M_bind.
  destruct (xdaysago_silent e (-1) (S n)) as ([t|x] & ->); [|cbn; lia].
  unfold google_news_to_table. unfold_M.
  destruct (quote_plus (build_query place)) as [quoted|x]; [|cbn; lia].
  destruct (feed e _) as [entries|x]; cbn; lia.
Qed.

Lemma fetches_app (a b : list event) :
  fetches (a ++ b) = fetches a ++ fetches b.
Proof.
  induction a as [|ev a IH]; [done|].
  destruct ev; simpl; by rewrite ?IH.
Qed.

Lemma fetches_cards (df : DataFrame) :
  fetches (concat (List.map card_events df)) = [].
Proof.
  induction df as [|r df IH]; [done|].
  simpl. rewrite fetches_app, IH. unfold card_events.
  by destruct (truthy (r_published_jst r)).
Qed.

Lemma page_after_fetches (max_rows : Z) (r : result (DataFrame * str * str)) :
  fetches (page_after max_rows r).2 = [].
Proof.
  destruct r as [[[df url] q]|x]; [|done].
  unfold page_after. case_bool_decide; [done|].
  cbn [snd fetches]. rewrite fetches_app, fetches_cards. done.
Qed.

Lemma normalise_nil_iff (ltz : Z) (entries : list entry) :
  normalise ltz entries 50 = [] <-> distinct_links (take 50 entries) = ∅.
Proof.
  pose proof (normalise_length ltz entries 50) as L.
  rewrite slice_to_nonneg in L by lia.
  change (Z.to_nat 50) with 50%nat in L.
  split; intros H.
  - rewrite H in L. simpl in L. symmetry in L.
    by apply size_empty_iff, leibniz_equiv in L.
  - rewrite H, size_empty in L. by apply nil_length_inv.
Qed.

End PageMore.

(** X13: the script has no handler around [feedparser.parse]: when that
    call raises an exception, [q_to_tb] and the page end with the same
    exception, after the heading and the request and before any
    message, card or table.  (A failure that feedparser handles itself
    by returning no entries takes the path of the empty result.) *)
Theorem fetch_failure_propagates (e : env) (n : nat) (place quoted : str)
        (max_rows : Z) (x : exn) :
  clock_ok (clock e n) -> clock_ok (clock e (S n)) ->
  truthy (strip place) = true ->
  quote_plus (build_query place) = Ok quoted ->
  feed e (the_request_url e n quoted) = Raise x ->
  outcome (q_to_tb place [] e n) = Raise x
  /\ script place max_rows true e n
     = (Raise x, S (S n),
        page_heading ++ [Fetch (the_request_url e n quoted)]).
Proof.
  intros H1 H2 Hp Hq Hf.
  pose proof (q_to_tb_run e n place [] quoted H1 H2 Hq) as R.
  cbv zeta in R. rewrite app_nil_r, Hf in R.
  split; [by rewrite R|].
  rewrite script_run, Hp. cbv zeta. rewrite R. reflexivity.
Qed.

Lemma fetch_failure_propagates_witness :
  outcome (script (lit "渋谷駅") 20 true Sample.down_env 0)
  = Raise RemoteDisconnected.
Proof.
  destruct (fetch_failure_propagates Sample.down_env 0 (lit "渋谷駅")
              Sample.shibuya_quoted 20 RemoteDisconnected) as [_ ->].
  - unfold clock_ok. vm_compute. split; reflexivity.
  - unfold clock_ok. vm_compute. split; reflexivity.
  - reflexivity.
  - vm_compute. reflexivity.
  - reflexivity.
  - reflexivity.
Defined.

(** X14: when none of the first 50 entries of the feed carries a
    non-empty link, the page shows the "nothing found" notice after the
    request and stops: no card, no table, and the URL is not shown. *)
Theorem empty_result_informs (e : env) (n : nat) (place quoted : str)
        (entries : list entry) (max_rows : Z) :
  clock_ok (clock e n) -> clock_ok (clock e (S n)) ->
  truthy (strip place) = true ->
  quote_plus (build_query place) = Ok quoted ->
  feed e (the_request_url e n quoted) = Ok entries ->
  distinct_links (take 50 entries) = ∅ ->
  script place max_rows true e n
  = (Raise StopException, S (S n),
     page_heading
       ++ [Fetch (the_request_url e n quoted); StInfo msg_not_found]).
Proof.
  intros H1 H2 Hp Hq Hf Hnone.
  pose proof (q_to_tb_run e n place [] quoted H1 H2 Hq) as R.
  cbv zeta in R. rewrite app_nil_r, Hf in R.
  apply (normalise_nil_iff (localtz e)) in Hnone.
  rewrite script_run, Hp. cbv zeta. rewrite R.
  unfold outcome, reads, events, rbind. cbn [fst snd].
  by rewrite Hnone.
Qed.

Lemma empty_result_informs_witness :
  script (lit "渋谷駅") 20 true Sample.linkless_env 0
  = (Raise StopException, 2%nat,
     page_heading
       ++ [Fetch (lit "https://news.google.com/rss/search?q=after:2024-06-14+before:2024-06-16+%28%E6%B8%8B%E8%B0%B7%E9%A7%85%29+AND+%28%E3%82%A4%E3%83%99%E3%83%B3%E3%83%88+OR+%E9%96%8B%E5%82%AC+OR+%E3%82%AA%E3%83%BC%E3%83%97%E3%83%B3+OR+%E7%A5%AD%E3%82%8A+OR+%E4%BD%93%E9%A8%93%E4%BC%9A+OR+%E3%83%95%E3%82%A7%E3%82%B9+OR+%E5%B1%95%E7%A4%BA%E4%BC%9A+OR+%E5%B1%95%29&hl=ja&gl=JP&ceid=JP:ja");
           StInfo msg_not_found]).
Proof.
  rewrite (empty_result_informs Sample.linkless_env 0 (lit "渋谷駅")
             Sample.shibuya_quoted
             [Entry None (Some (lit "t")) None None;
              Entry (Some []) (Some (lit "u")) None None]).
  - vm_compute. reflexivity.
  - unfold clock_ok. vm_compute. split; reflexivity.
  - unfold clock_ok. vm_compute. split; reflexivity.
  - reflexivity.
  - vm_compute. reflexivity.
  - reflexivity.
  - vm_compute. reflexivity.
Defined.

(** X15: when the table built from the feed is not empty and each of
    its rows names a source, the run ends normally after the heading,
    the request, the sub-heading, one card per displayed row in table
    order, the table of the same rows, and the URL, which is the very
    URL that was requested. *)
Theorem result_page (e : env) (n : nat) (place quoted : str)
        (entries : list entry) (max_rows : Z) :
  clock_ok (clock e n) -> clock_ok (clock e (S n)) ->
  truthy (strip place) = true ->
  quote_plus (build_query place) = Ok quoted ->
  feed e (the_request_url e n quoted) = Ok entries ->
  distinct_links (take 50 entries) <> ∅ ->
  Forall (fun r => is_Some (r_source r))
         (normalise (localtz e) entries 50) ->
  let url := the_request_url e n quoted in
  let shown := head max_rows (iloc_to 20 (normalise (localtz e) entries 50)) in
  script place max_rows true e n
  = (Ok tt, S (S n),
     page_heading
       ++ [Fetch url; StSubheader (lit "関連記事")]
       ++ concat (List.map card_events shown)
       ++ [StDataframe shown;
           StMarkdown (lit "**実際に使用したRSS URL**");
           StCode url]).
Proof.
  intros H1 H2 Hp Hq Hf Hsome _ url shown.
  pose proof (q_to_tb_run e n place [] quoted H1 H2 Hq) as R.
  cbv zeta in R. rewrite app_nil_r, Hf in R.
  assert (Hne : iloc_to 20 (normalise (localtz e) entries 50) <> []).
  { intros E. apply Hsome, (normalise_nil_iff (localtz e)).
    unfold iloc_to in E. rewrite slice_to_nonneg in E by lia.
    destruct (normalise (localtz e) entries 50); [done|].
    by change (Z.to_nat 20) with 20%nat in E. }
  rewrite script_run, Hp. cbv zeta. rewrite R.
  unfold outcome, reads, events, rbind, page_after. cbn [fst snd].
  rewrite bool_decide_eq_false_2 by done.
  reflexivity.
Qed.

Lemma result_page_witness :
  displayed (events (script (lit "渋谷駅") 10 true (Sample.sourced_env 2) 0))
  = [Row (lit "t") (Some (lit "NHK")) [] (lit "https://example.com/A");
     Row (lit "t") (Some (lit "NHK")) [] (lit "https://example.com/B")]
  /\ outcome (script (lit "渋谷駅") 10 true (Sample.sourced_env 2) 0) = Ok tt.
Proof.
  rewrite (result_page (Sample.sourced_env 2) 0 (lit "渋谷駅")
             Sample.shibuya_quoted
             (List.map Sample.sourced_entry (seq 0 2)) 10).
  - split; vm_compute; reflexivity.
  - unfold clock_ok. vm_compute. split; reflexivity.
  - unfold clock_ok. vm_compute. split; reflexivity.
  - reflexivity.
  - vm_compute. reflexivity.
  - reflexivity.
  - apply (bool_decide_unpack _). vm_compute. exact I.
  - vm_compute. repeat constructor; by eexists.
Defined.

Section DisplayMore.
Variable (e : env).

Lemma slice_to_all {A} (k : Z) (l : list A) :
  (Z.of_nat (length l) <= k)%Z -> slice_to k l = l.
Proof.
  intros H. rewrite slice_to_nonneg by lia. apply take_ge. lia.
Qed.

Lemma slice_to_sublist {A} (k : Z) (l : list A) :
  slice_to k l `sublist_of` l.
Proof. unfold slice_to. destruct (0 <=? k)%Z; apply sublist_take. Qed.

Lemma slice_to_map {A B} (f : A -> B) (k : Z) (l : list A) :
  slice_to k (List.map f l) = List.map f (slice_to k l).
Proof.
  unfold slice_to. rewrite length_map.
  destruct (0 <=? k)%Z; symmetry; apply (fmap_take f).
Qed.

Lemma sublist_map {A B} (f : A -> B) (l1 l2 : list A) :
  l1 `sublist_of` l2 -> List.map f l1 `sublist_of` List.map f l2.
Proof.
  induction 1; simpl;
    [constructor | by apply sublist_skip | by apply sublist_cons].
Qed.

(** The table of [q_to_tb] has at most 20 rows, so a row limit of 20 or
    more keeps it whole. *)
Lemma head_above_cap (n : nat) (place : str) (m : Z) (df : DataFrame)
      (url q : str) :
  outcome (q_to_tb place [] e n) = Ok (df, url, q) ->
  (20 <= m)%Z -> head m df = df.
Proof.
  intros H Hm. apply q_to_tb_inv in H as (entries & _ & -> & _).
  unfold head, iloc_to. apply slice_to_all.
  rewrite slice_to_nonneg by lia. rewrite length_take. lia.
Qed.

(** A call of [q_to_tb] that returns has fetched the URL it returns. *)
Lemma q_to_tb_inv_fetch (n : nat) (place add : str) (df : DataFrame)
      (url q : str) :
  outcome (q_to_tb place add e n) = Ok (df, url, q) ->
  events (q_to_tb place add e n) = [Fetch url].
Proof.
  unfold q_to_tb, google_news_to_table. unfold_M.
  destruct (xdaysago_silent e 1 n) as ([y|x] & ->); cbv beta iota; [|done].
  destruct (xdaysago_silent e (-1) (S n)) as ([t|x] & ->); cbv beta iota;
    [|done].
  destruct (quote_plus (build_query place)) as [quoted|x]; [|done].
  destruct (feed e _) as [entries|x] eqn:Ef; [|done].
  unfold outcome, events. cbn [fst snd app].
  by intros [= _ <- _].
Qed.

(** The displayed rows are those of a subsequence of the fetched feed. *)
Lemma displayed_kept (n : nat) (place : str) (m : Z) (run : bool) :
  exists kept,
    displayed (events (script place m run e n))
    = List.map (row_of (localtz e)) kept
    /\ NoDup (List.map link_of kept)
    /\ (kept = []
        \/ exists url entries,
             fetches (events (script place m run e n)) = [url]
             /\ feed e url = Ok entries /\ kept `sublist_of` entries).
Proof.
  rewrite script_displayed, script_run.
  destruct run; [|exists []; repeat split; [constructor|by left]].
  destruct (truthy (strip place));
    [|exists []; repeat split; [constructor|by left]].
  cbv zeta.
  destruct (outcome (q_to_tb place [] e n)) as [[[df url] q]|x] eqn:E;
    [|exists []; repeat split; [constructor|by left]].
  assert (Hfetch : fetches (events (q_to_tb place [] e n)) = [url])
    by (by rewrite (q_to_tb_inv_fetch _ _ _ _ _ _ E)).
  apply q_to_tb_inv in E as (entries & Hf & -> & _).
  unfold head, iloc_to. rewrite normalise_spec_keep, !slice_to_map.
  set (kept := slice_to m (slice_to 20 (spec_keep ∅ (slice_to 50 entries)))).
  assert (Hsub : kept `sublist_of` spec_keep ∅ (slice_to 50 entries)).
  { unfold kept. etransitivity; apply slice_to_sublist. }
  exists kept. split; [done|]. split.
  - apply (sublist_NoDup _ _ (spec_keep_NoDup _ _)
             (sublist_map link_of _ _ Hsub)).
  - right. exists url, entries. split; [|split; [done|]].
    + unfold events at 1. cbn [snd].
      rewrite !fetches_app, Hfetch, page_after_fetches. reflexivity.
    + etransitivity; [exact Hsub|].
      etransitivity; [apply spec_keep_sublist|apply slice_to_sublist].
Qed.

End DisplayMore.

(** X16: row limits from 20 up give the same run: the table has at most
    20 rows before the row limit is applied, so the limit changes
    nothing once it reaches 20. *)
Theorem row_limits_from_20_agree (e : env) (n : nat) (place : str)
        (m1 m2 : Z) (run : bool) :
  (20 <= m1)%Z -> (20 <= m2)%Z ->
  script place m1 run e n = script place m2 run e n.
Proof.
  intros Hm1 Hm2. rewrite !script_run.
  destruct run; [|done]. destruct (truthy (strip place)); [|done].
  cbv zeta.
  destruct (outcome (q_to_tb place [] e n)) as [[[df url] q]|x] eqn:E;
    [|done].
  unfold page_after.
  by rewrite (head_above_cap e n place m1 df url q E Hm1),
             (head_above_cap e n place m2 df url q E Hm2).
Qed.

Lemma row_limits_from_20_agree_witness :
  script (lit "渋谷駅") 20 true (Sample.noon_env 30) 0
  = script (lit "渋谷駅") 50 true (Sample.noon_env 30) 0.
Proof.
  apply (row_limits_from_20_agree (Sample.noon_env 30) 0 (lit "渋谷駅") 20 50);
    lia.
Defined.

(** X17: whatever the inputs, the rows the page displays have pairwise
    distinct links and, when there are any, are the rows of a
    subsequence, in feed order, of the entries [feedparser.parse]
    returned for the one URL the run fetched. *)
Theorem displayed_rows_from_feed (e : env) (n : nat) (place : str)
        (max_rows : Z) (run : bool) :
  exists kept,
    displayed (events (script place max_rows run e n))
    = List.map (row_of (localtz e)) kept
    /\ NoDup (List.map r_link
                (displayed (events (script place max_rows run e n))))
    /\ (kept = []
        \/ exists url entries,
             fetches (events (script place max_rows run e n)) = [url]
             /\ feed e url = Ok entries /\ kept `sublist_of` entries).
Proof.
  destruct (displayed_kept e n place max_rows run) as (kept & E & Hnd & Hk).
  exists kept. split; [done|]. split; [|done].
  rewrite E, map_map. exact Hnd.
Qed.

(** X18: a run fetches at most once, and not at all when the button was
    not pressed or the place is blank. *)
Theorem at_most_one_fetch (e : env) (n : nat) (place : str) (max_rows : Z)
        (run : bool) :
  (length (fetches (events (script place max_rows run e n))) <= 1)%nat
  /\ (run = false \/ truthy (strip place) = false ->
      fetches (events (script place max_rows run e n)) = []).
Proof.
  rewrite script_run.
  destruct run; [|split; [simpl; lia|done]].
  destruct (truthy (strip place)); [|split; [simpl; lia|done]].
  cbv zeta. unfold events at 1 3. cbn [snd].
  split; [|by intros [?|?]].
  rewrite !fetches_app, page_after_fetches, app_nil_r.
  pose proof (q_to_tb_fetches e n place []) as H.
  simpl. exact H.
Qed.


(* ===================================================================== *)
(** ** The date window across midnight                                    *)
(* ===================================================================== *)

(** C4 (the code departs from it): [q_to_tb] reads the clock twice, once
    for each date.  A request begun at 23:59:59 of 2024-06-15 in the
    target zone, whose second reading falls one second later, asks for
    [after:2024-06-14] and [before:2024-06-17]: the second date is two
    days, not one, after the day of the request. *)
Theorem date_window_across_midnight :
  isoformat (Date (jst_day (clock Sample.midnight_env 0))) = lit "2024-06-15"
  /\ xdaysago 1 Sample.midnight_env 0 = (Ok (lit "2024-06-14"), 1%nat, [])
  /\ xdaysago (-1) Sample.midnight_env 1 = (Ok (lit "2024-06-17"), 2%nat, [])
  /\ events (q_to_tb (lit "渋谷駅") [] Sample.midnight_env 0)
     = [Fetch (spec_request_url (lit "2024-06-14") (lit "2024-06-17")
                 Sample.shibuya_quoted)].
Proof. repeat split; vm_compute; reflexivity. Qed.
